(** * sample/edit_fencing.py: the motion-editing driver

    A shallow embedding of [main] of [sample/edit_fencing.py]: argument
    handling, the output path, the inpainting mask, the repetition loop,
    the saved files and the shell commands.  The sampler, the model, the
    motion-representation functions and the renderer are imported by the
    script; they appear here as the fields of an interface.  Loading a
    file and every imported function are taken to return; what the script
    itself can raise (assertions, indexing, [int] of a float, the file
    operations) is in the model. *)

From Stdlib Require Import ZArith List Ascii String Floats DecimalString DecimalZ
  DecimalPos.
From stdpp Require Import base option list gmap strings.

Local Open Scope string_scope.
Local Open Scope Z_scope.

(** ** Exceptions and results *)

Inductive exn : Type :=
| AssertionError
| IndexError
| ValueError
| OverflowError
| RuntimeError
| FileNotFoundError
| FileExistsError
| NotADirectoryError
| IsADirectoryError
| NameError.

Inductive result (A : Type) : Type :=
| Ok (a : A)
| Raise (e : exn).
Arguments Ok {A} a.
Arguments Raise {A} e.

#[global] Instance result_ret : MRet result := fun _ a => Ok a.
#[global] Instance result_bind : MBind result := fun _ _ k r =>
  match r with
  | Ok a => k a
  | Raise e => Raise e
  end.

Definition assert (b : bool) : result unit :=
  if b then Ok tt else Raise AssertionError.

(** ** Python strings *)

Module Str.

Definition eqb (a b : string) : bool := bool_decide (a = b).

(** [str.replace(old, new)] for a non-empty [old], the only use in the
    script: occurrences are found left to right and do not overlap.
    [skip] counts the characters of a match still to drop. *)
Fixpoint replace_from (old new : string) (skip : nat) (s : string) : string :=
  match s with
  | EmptyString => EmptyString
  | String c s' =>
      match skip with
      | S k => replace_from old new k s'
      | O =>
          if String.prefix old s
          then new +:+ replace_from old new (String.length old - 1) s'
          else String c (replace_from old new 0 s')
      end
  end.

Definition replace (old new s : string) : string := replace_from old new 0 s.

(** [sep.join(l)] *)
Fixpoint join (sep : string) (l : list string) : string :=
  match l with
  | [] => ""
  | [x] => x
  | x :: rest => x +:+ sep +:+ join sep rest
  end.

(** [str(n)] for an [int] *)
Definition of_int (n : Z) : string := NilZero.string_of_int (Z.to_int n).

(** ['{:02d}'.format(n)]: decimal, zero-padded to two characters *)
Definition format_02d (n : Z) : string :=
  let s := of_int n in
  if (String.length s <? 2)%nat then "0" +:+ s else s.

Definition startswith (p s : string) : bool := String.prefix p s.

Fixpoint endswith_char (c : ascii) (s : string) : bool :=
  match s with
  | EmptyString => false
  | String d EmptyString => bool_decide (c = d)
  | String _ s' => endswith_char c s'
  end.

End Str.

(** ** [os.path] (posixpath) *)

Module Path.

Definition sep : ascii := "/"%char.

(** [(p[:i], p[i:])] where [i = p.rfind('/') + 1] *)
Fixpoint split_last (p : string) : string * string :=
  match p with
  | EmptyString => (EmptyString, EmptyString)
  | String c p' =>
      let '(h, t) := split_last p' in
      match h with
      | String _ _ => (String c h, t)
      | EmptyString =>
          if bool_decide (c = sep)
          then (String c EmptyString, p')
          else (EmptyString, String c p')
      end
  end.

(** [s.rstrip('/')] *)
Fixpoint rstrip_sep (s : string) : string :=
  match s with
  | EmptyString => EmptyString
  | String c s' =>
      match rstrip_sep s' with
      | EmptyString => if bool_decide (c = sep) then EmptyString
                       else String c EmptyString
      | r => String c r
      end
  end.

Definition basename (p : string) : string := snd (split_last p).

(** [head = p[:i]; if head and head != sep*len(head): head = head.rstrip(sep)] *)
Definition dirname (p : string) : string :=
  let head := fst (split_last p) in
  match rstrip_sep head with
  | EmptyString => head
  | r => r
  end.

(** [os.path.join(a, b)] *)
Definition join (a b : string) : string :=
  if Str.startswith "/" b then b
  else if Str.eqb a "" || Str.endswith_char sep a then a +:+ b
  else a +:+ "/" +:+ b.

End Path.

(** ** Numbers

    [args.prefix_end * length] multiplies a Python float by a numpy int64
    and [int(...)] truncates the binary64 product towards zero; it raises
    on an infinity ([OverflowError]) and on a NaN ([ValueError]). *)

Definition float_of_int (n : Z) : float :=
  if n <? 0 then PrimFloat.opp (PrimFloat.of_uint63 (Uint63.of_Z (- n)))
  else PrimFloat.of_uint63 (Uint63.of_Z n).

Definition int_of_float (x : float) : result Z :=
  match Prim2SF x with
  | S754_zero _ => Ok 0
  | S754_finite s m e =>
      let a := match e with
               | Z0 => Zpos m
               | Zpos k => Z.shiftl (Zpos m) (Zpos k)
               | Zneg k => Z.shiftr (Zpos m) (Zpos k)
               end in
      Ok (if s then - a else a)
  | S754_infinity _ => Raise OverflowError
  | S754_nan => Raise ValueError
  end.

(** [int(ratio * length)] *)
Definition frame_index (ratio : float) (length : Z) : result Z :=
  int_of_float (PrimFloat.mul ratio (float_of_int length)).

(** [list(range(a, b))] *)
Definition py_range (a b : Z) : list Z :=
  map (fun k => a + Z.of_nat k) (seq 0 (Z.to_nat (b - a))).

(** [l[:n]] *)
Definition py_take {A : Type} (n : Z) (l : list A) : list A :=
  if n <? 0 then take (length l - Z.to_nat (- n)) l else take (Z.to_nat n) l.

(** [l[i]] for a list or an array *)
Definition py_index {A : Type} (l : list A) (i : Z) : result A :=
  let k := if i <? 0 then i + Z.of_nat (length l) else i in
  if k <? 0 then Raise IndexError
  else match l !! Z.to_nat k with
       | Some x => Ok x
       | None => Raise IndexError
       end.

(** ** Arrays loaded from [.npy] files

    An array of rank [r] is a list nested [r] times; only the shape and,
    for rank 1, the entries matter to the script. *)

Fixpoint nd (rank : nat) : Type :=
  match rank with
  | O => Z
  | S r => list (nd r)
  end.

Record ndarray : Type := { nd_rank : nat; nd_data : nd nd_rank }.

Fixpoint nd_shape_of (r : nat) : nd r -> list Z :=
  match r with
  | O => fun _ => []
  | S r' => fun rows =>
      Z.of_nat (length rows) ::
      match rows with
      | [] => replicate r' 0
      | row :: _ => nd_shape_of r' row
      end
  end.

(** [a.shape] *)
Definition nd_shape (a : ndarray) : list Z := nd_shape_of (nd_rank a) (nd_data a).

(** the entries of a one-dimensional array *)
Definition nd_entries (a : ndarray) : list Z :=
  match nd_rank a as r return nd r -> list Z with
  | 1%nat => fun d => d
  | _ => fun _ => []
  end (nd_data a).

Definition array1 (l : list Z) : ndarray := {| nd_rank := 1; nd_data := l |}.

(** [torch.tensor(a, dtype=torch.bool)]: an entry is True when it is not zero *)
Definition torch_bool (a : ndarray) : list bool :=
  map (fun x => negb (x =? 0)) (nd_entries a).

(** [a.nonzero()[0].tolist()] for a one-dimensional array *)
Definition nd_nonzero (a : ndarray) : list Z :=
  omap (fun '(k, x) => if x =? 0 then None else Some (Z.of_nat k))
       (imap (fun k x => (k, x)) (nd_entries a)).

(** ** Boolean masks of shape [batch, njoints, nfeats, frames] *)

Abbreviation mask4 := (list (list (list (list bool)))).

(** [torch.ones_like(input_motions, dtype=torch.bool)] *)
Definition ones_like (B J F T : nat) : mask4 :=
  replicate B (replicate J (replicate F (replicate T true))).

(** a bound of a slice over an axis of [n] entries: negative bounds count
    from the end, and bounds are clipped to the axis *)
Definition slice_bound (n : nat) (x : Z) : Z :=
  if x <? 0 then Z.max 0 (x + Z.of_nat n) else Z.min x (Z.of_nat n).

(** [row[a:b] = v] *)
Definition slice_fill (a b : Z) (v : bool) (row : list bool) : list bool :=
  let lo := slice_bound (length row) a in
  let hi := slice_bound (length row) b in
  imap (fun t x => if (lo <=? Z.of_nat t) && (Z.of_nat t <? hi) then v else x) row.

(** [m[i, :, :, a:b] = v], for [i] from [enumerate] *)
Definition fill_frames (i : nat) (a b : Z) (v : bool) (m : mask4) : result mask4 :=
  match m !! i with
  | None => Raise IndexError
  | Some sample => Ok (<[i := map (map (slice_fill a b v)) sample]> m)
  end.

(** [m[i, :, :, :] = mask_t], a one-dimensional [mask_t] over the frames,
    broadcast over joints and features *)
Definition broadcast_row (mask_t : list bool) (row : list bool) : result (list bool) :=
  if bool_decide (length mask_t = length row) then Ok mask_t
  else match mask_t with
       | [v] => Ok (replicate (length row) v)
       | _ => Raise RuntimeError
       end.

Definition assign_frames (i : nat) (mask_t : list bool) (m : mask4) : result mask4 :=
  match m !! i with
  | None => Raise IndexError
  | Some sample =>
      sample' ← mapM (mapM (broadcast_row mask_t)) sample;
      Ok (<[i := sample']> m)
  end.

(** [x.repeat(n, ...)] along one axis *)
Definition tile {A : Type} (n : nat) (l : list A) : list A := mjoin (replicate n l).

(** [x.repeat(a, b, c, d)] for a four-dimensional [x] *)
Definition torch_repeat4 (a b c d : nat) (x : mask4) : mask4 :=
  tile a (map (fun y => tile b (map (fun z => tile c (map (tile d) z)) y)) x).

(** [torch.tensor(v).unsqueeze(0).unsqueeze(-1).unsqueeze(-1)]: shape [1, len(v), 1, 1] *)
Definition unsqueeze_0_m1_m1 (v : list bool) : mask4 := [map (fun h => [[h]]) v].

(** ** Arguments, the loaded batch and the model *)

(** Modelled from the spec: the edit is in-between or upper-body.  The
    parser [edit_args] (utils/parser_util.py), which declares
    [--edit_mode], is not among the sources; the script compares
    [args.edit_mode] with ['in_between'] and ['upper_body'] and formats it
    into the output path. *)
Inductive EditMode : Type := in_between | upper_body.

Definition edit_mode_name (m : EditMode) : string :=
  match m with
  | in_between => "in_between"
  | upper_body => "upper_body"
  end.

Record Args : Type := {
  input_motion_path : string;
  mask_path : string;
  model_path : string;
  output_dir : string;
  edit_mode : EditMode;
  text_condition : string;
  seed : Z;
  num_samples : Z;
  batch_size : Z;
  num_repetitions : Z;
  prefix_end : float;
  suffix_start : float;
  guidance_param : float;
  dataset : string;
  unconstrained : bool
}.

Definition set_batch_size (v : Z) (a : Args) : Args :=
  {| input_motion_path := input_motion_path a; mask_path := mask_path a;
     model_path := model_path a; output_dir := output_dir a;
     edit_mode := edit_mode a; text_condition := text_condition a;
     seed := seed a; num_samples := num_samples a; batch_size := v;
     num_repetitions := num_repetitions a; prefix_end := prefix_end a;
     suffix_start := suffix_start a; guidance_param := guidance_param a;
     dataset := dataset a; unconstrained := unconstrained a |}.

Definition set_guidance_param (v : float) (a : Args) : Args :=
  {| input_motion_path := input_motion_path a; mask_path := mask_path a;
     model_path := model_path a; output_dir := output_dir a;
     edit_mode := edit_mode a; text_condition := text_condition a;
     seed := seed a; num_samples := num_samples a; batch_size := batch_size a;
     num_repetitions := num_repetitions a; prefix_end := prefix_end a;
     suffix_start := suffix_start a; guidance_param := v;
     dataset := dataset a; unconstrained := unconstrained a |}.

(** ['edit_{}_{}_{}_seed{}'.format(name, niter, args.edit_mode, args.seed)] *)
Definition edit_dir_name (name niter : string) (a : Args) : string :=
  "edit_" +:+ name +:+ "_" +:+ niter +:+ "_" +:+ edit_mode_name (edit_mode a)
  +:+ "_seed" +:+ Str.of_int (seed a).

(** lines 38-52 *)
Definition resolve_out_path (a : Args) : string :=
  let out_path := output_dir a in
  let name := Path.basename (Path.dirname (model_path a)) in
  let niter := Str.replace ".pt" "" (Str.replace "model" "" (Path.basename (model_path a))) in
  if Str.eqb out_path "" then
    let out_path := Path.join (Path.dirname (model_path a)) (edit_dir_name name niter a) in
    if negb (Str.eqb (text_condition a) "") then
      out_path +:+ "_" +:+ Str.replace "." "" (Str.replace " " "_" (text_condition a))
    else out_path
  else
    let out_path := Path.join out_path (edit_dir_name name niter a) in
    if negb (Str.eqb (text_condition a) "") then
      out_path +:+ "_" +:+ Str.replace "." "" (Str.replace " " "_" (text_condition a))
    else out_path.

(** lines 55-61 *)
Definition check_batch_size (a : Args) : result Args :=
  _ ← assert (num_samples a <=? batch_size a);
  Ok (set_batch_size (num_samples a) a).

(** What [next(iter(data))] yields: the input motions, a tensor of shape
    [len(lengths), njoints, nfeats, max_frames], and the lengths. *)
Record Batch (Tensor : Type) : Type := {
  input_motions : Tensor;
  in_njoints : nat;
  in_nfeats : nat;
  max_frames : nat;
  lengths : list Z
}.
Arguments input_motions {Tensor} b.
Arguments in_njoints {Tensor} b.
Arguments in_nfeats {Tensor} b.
Arguments max_frames {Tensor} b.
Arguments lengths {Tensor} b.

(** [model_kwargs['y']] *)
Record Kwargs (Tensor : Type) : Type := {
  kw_inpainted_motion : Tensor;
  kw_inpainting_mask : mask4;
  kw_text : list string;
  kw_lengths : list Z;
  kw_scale : option (list float)
}.
Arguments kw_inpainted_motion {Tensor} k.
Arguments kw_inpainting_mask {Tensor} k.
Arguments kw_text {Tensor} k.
Arguments kw_lengths {Tensor} k.
Arguments kw_scale {Tensor} k.

(** ** The inpainting mask, lines 90-114 *)

Abbreviation gt_frames := (gmap nat (list Z)).

(** the loop of lines 95-99, from sample [i] on *)
Fixpoint in_between_loop (a : Args) (T : nat) (i : nat) (ls : list Z)
    (st : mask4 * gt_frames) : result (mask4 * gt_frames) :=
  match ls with
  | [] => Ok st
  | length :: rest =>
      start_idx ← frame_index (prefix_end a) length;
      end_idx ← frame_index (suffix_start a) length;
      let gt := <[i := (py_range 0 start_idx ++ py_range end_idx (Z.of_nat T))%list]> (snd st) in
      m ← fill_frames i start_idx end_idx false (fst st);
      in_between_loop a T (S i) rest (m, gt)
  end.

(** lines 90-104; [hml_lower_body_mask] is [humanml_utils.HML_LOWER_BODY_MASK] *)
Definition edit_mask {Tensor : Type} (hml_lower_body_mask : list bool) (a : Args)
    (b : Batch Tensor) : result (mask4 * gt_frames) :=
  match edit_mode a with
  | in_between =>
      in_between_loop a (max_frames b) 0 (lengths b)
        (ones_like (length (lengths b)) (in_njoints b) (in_nfeats b) (max_frames b), ∅)
  | upper_body =>
      Ok (torch_repeat4 (length (lengths b)) 1 (in_nfeats b) (max_frames b)
            (unsqueeze_0_m1_m1 hml_lower_body_mask), ∅)
  end.

(** the loop of lines 112-114, from sample [i] on *)
Fixpoint mask_file_loop (mask_np : ndarray) (i : nat) (ls : list Z)
    (st : mask4 * gt_frames) : result (mask4 * gt_frames) :=
  match ls with
  | [] => Ok st
  | _ :: rest =>
      m ← assign_frames i (torch_bool mask_np) (fst st);
      mask_file_loop mask_np (S i) rest (m, <[i := nd_nonzero mask_np]> (snd st))
  end.

(** lines 107-114; [mask_np] is what [np.load(args.mask_path)] returns *)
Definition apply_mask_file {Tensor : Type} (a : Args) (b : Batch Tensor) (mask_np : ndarray)
    (st : mask4 * gt_frames) : result (mask4 * gt_frames) :=
  if negb (Str.eqb (mask_path a) "") then
    _ ← assert (bool_decide (nd_shape mask_np = [Z.of_nat (max_frames b)]));
    mask_file_loop mask_np 0 (lengths b) st
  else Ok st.

(** lines 90-114 *)
Definition inpainting_mask {Tensor : Type} (hml_lower_body_mask : list bool) (a : Args)
    (b : Batch Tensor) (mask_np : ndarray) : result (mask4 * gt_frames) :=
  st ← edit_mask hml_lower_body_mask a b;
  apply_mask_file a b mask_np st.

(** ** The imported functions *)

Inductive Skeleton : Type := kit_kinematic_chain | t2m_kinematic_chain.

(** the attributes of the model the script reads *)
Record Model : Type := { njoints : Z; nfeats : Z; data_rep : string }.

(** the arguments of one call of [diffusion.p_sample_loop] *)
Record SampleCall (Tensor : Type) : Type := {
  sc_shape : list Z;
  sc_clip_denoised : bool;
  sc_model_kwargs : Kwargs Tensor;
  sc_skip_timesteps : Z;
  sc_init_image : option Tensor;
  sc_progress : bool;
  sc_dump_steps : option (list Z);
  sc_noise : option Tensor;
  sc_const_noise : bool
}.
Arguments sc_shape {Tensor} s.
Arguments sc_clip_denoised {Tensor} s.
Arguments sc_model_kwargs {Tensor} s.
Arguments sc_skip_timesteps {Tensor} s.
Arguments sc_init_image {Tensor} s.
Arguments sc_progress {Tensor} s.
Arguments sc_dump_steps {Tensor} s.
Arguments sc_noise {Tensor} s.
Arguments sc_const_noise {Tensor} s.

(** the arguments of one call of [plot_3d_motion] *)
Record PlotCall (Tensor : Type) : Type := {
  pc_save_path : string;
  pc_skeleton : Skeleton;
  pc_motion : Tensor;
  pc_dataset : string;
  pc_title : string;
  pc_fps : Z;
  pc_gt_frames : list Z;
  pc_global_coords : bool
}.
Arguments pc_save_path {Tensor} p.
Arguments pc_skeleton {Tensor} p.
Arguments pc_motion {Tensor} p.
Arguments pc_dataset {Tensor} p.
Arguments pc_title {Tensor} p.
Arguments pc_fps {Tensor} p.
Arguments pc_gt_frames {Tensor} p.
Arguments pc_global_coords {Tensor} p.

(** What the script imports and calls without looking inside: tensors and
    arrays of floats with the operations used on them, the sampler (its
    first argument counts the earlier calls: every call draws new noise),
    the motion-representation functions, the renderer and two constants. *)
Class Externals : Type := {
  Tensor : Type;
  Animation : Type;
  tensor_shape : Tensor -> list Z;
  permute : Tensor -> list Z -> Tensor;
  to_float : Tensor -> Tensor;
  view : Tensor -> list Z -> Tensor;
  inv_transform : Tensor -> Tensor;
  recover_from_ric : Tensor -> Z -> Tensor;
  p_sample_loop : nat -> SampleCall Tensor -> Tensor;
  np_concatenate : list Tensor -> Tensor;
  np_slice_to : Tensor -> Z -> Tensor;
  np_item : Tensor -> Z -> Tensor;
  np_transpose : Tensor -> list Z -> Tensor;
  plot_3d_motion : PlotCall Tensor -> Animation;
  HML_LOWER_BODY_MASK : list bool;
  all_file_template : bool -> string
}.

(** ** The world: files and calls that leave the script *)

Section World.
Context `{E : Externals}.

(** the dict saved in [results.npy] *)
Record Results : Type := {
  r_motion : Tensor;
  r_text : list string;
  r_lengths : list Z;
  r_num_samples : Z;
  r_num_repetitions : Z
}.

Inductive node : Type :=
| Dir
| NpyFile (r : Results)
| TextFile (s : string).

Inductive event : Type :=
| EvSample (c : SampleCall Tensor)
| EvPlot (c : PlotCall Tensor)
| EvSystem (cmd : string)
| EvSaveMultiple (out_path : string) (template : string)
    (animations : list (list Animation)) (fps : Z) (max_frames : Z).

Record World : Type := { w_fs : gmap string node; w_log : list event }.

(** a step of the script: a result or an exception, and the world after it *)
Definition script (A : Type) : Type := World -> result A * World.

Definition lift {A : Type} (r : result A) : script A := fun w => (r, w).

Definition emit (e : event) : script unit :=
  fun w => (Ok tt, {| w_fs := w_fs w; w_log := (w_log w ++ [e])%list |}).

Definition with_fs (f : gmap string node -> result (gmap string node)) : script unit :=
  fun w => match f (w_fs w) with
           | Ok fs => (Ok tt, {| w_fs := fs; w_log := w_log w |})
           | Raise e => (Raise e, w)
           end.

End World.

#[global] Instance script_ret `{E : Externals} : MRet script :=
  fun _ a w => (Ok a, w).
#[global] Instance script_bind `{E : Externals} : MBind script :=
  fun _ _ k m w =>
    match m w with
    | (Ok a, w') => k a w'
    | (Raise e, w') => (Raise e, w')
    end.

Section FileSystem.
Context `{E : Externals}.

(** [d] with the separator a path inside it continues after *)
Definition dir_prefix (d : string) : string :=
  if Str.eqb d "" || Str.endswith_char Path.sep d then d else d +:+ "/".

(** [q] lies inside the directory [d] *)
Definition inside (d q : string) : bool :=
  negb (Str.eqb q d) && Str.startswith (dir_prefix d) q.

(** the directories above [p], nearest first *)
Fixpoint parents (fuel : nat) (p : string) : list string :=
  match fuel with
  | O => []
  | S n =>
      let head := Path.dirname p in
      if Str.eqb head "" || Str.eqb head p then [] else head :: parents n head
  end.

(** [os.path.exists(p)] *)
Definition path_exists (p : string) : script bool :=
  fun w => (Ok (bool_decide (is_Some (w_fs w !! p))), w).

(** [shutil.rmtree(p)] *)
Definition rmtree (p : string) : script unit :=
  with_fs (fun fs =>
    match fs !! p with
    | Some Dir => Ok (filter (fun kv => negb (Str.eqb kv.1 p) && negb (inside p kv.1)) fs)
    | Some _ => Raise NotADirectoryError
    | None => Raise FileNotFoundError
    end).

(** [os.makedirs(p)]: the directory and the missing ones above it *)
Definition makedirs (p : string) : script unit :=
  with_fs (fun fs =>
    match fs !! p with
    | Some _ => Raise FileExistsError
    | None =>
        foldr (fun d acc =>
                 fs' ← acc;
                 match fs' !! d with
                 | None => Ok (<[d := Dir]> fs')
                 | Some Dir => Ok fs'
                 | Some _ => Raise NotADirectoryError
                 end)
              (Ok fs) (p :: parents (String.length p) p)
    end).

(** creating or truncating the file [p], as [open(p, 'w')] and [np.save] do *)
Definition write_file (p : string) (content : node) : script unit :=
  with_fs (fun fs =>
    let parent := Path.dirname p in
    match fs !! p with
    | Some Dir => Raise IsADirectoryError
    | _ =>
        if Str.eqb parent "" then Ok (<[p := content]> fs)
        else match fs !! parent with
             | Some Dir => Ok (<[p := content]> fs)
             | Some _ => Raise NotADirectoryError
             | None => Raise FileNotFoundError
             end
    end).

End FileSystem.

(** ** The script *)

Section Script.
Context `{E : Externals}.

Definition newline : string := String (ascii_of_nat 10) EmptyString.

(** [torch.ones(n, device=...) * g] *)
Definition ones_times (n : Z) (g : float) : result (list float) :=
  if n <? 0 then Raise RuntimeError
  else Ok (map (fun one => PrimFloat.mul one g) (replicate (Z.to_nat n) 1%float)).

Definition set_scale (s : list float) (k : Kwargs Tensor) : Kwargs Tensor :=
  {| kw_inpainted_motion := kw_inpainted_motion k;
     kw_inpainting_mask := kw_inpainting_mask k;
     kw_text := kw_text k; kw_lengths := kw_lengths k; kw_scale := Some s |}.

(** the variables the repetition loop updates *)
Record LoopState : Type := {
  ls_kwargs : Kwargs Tensor;
  ls_n_joints : option Z;
  ls_all_motions : list Tensor;
  ls_all_lengths : list (list Z);
  ls_all_text : list string
}.

(** lines 121-153, one repetition; [.cpu()] and [.numpy()] move a tensor
    and keep its entries, they are left out *)
Definition repetition (a : Args) (model : Model) (T : nat) (rep_i : nat)
    (st : LoopState) : script LoopState :=
  scale ← lift (ones_times (batch_size a) (guidance_param a));
  let kw := set_scale scale (ls_kwargs st) in
  let call := {| sc_shape := [batch_size a; njoints model; nfeats model; Z.of_nat T];
                 sc_clip_denoised := false;
                 sc_model_kwargs := kw;
                 sc_skip_timesteps := 0;
                 sc_init_image := None;
                 sc_progress := true;
                 sc_dump_steps := None;
                 sc_noise := None;
                 sc_const_noise := false |} in
  _ ← emit (EvSample call);
  let sample := p_sample_loop rep_i call in
  '(sample, n_joints) ←
    (if Str.eqb (data_rep model) "hml_vec" then
       dim1 ← lift (py_index (tensor_shape sample) 1);
       let n_joints := if dim1 =? 263 then 22 else 21 in
       let sample := to_float (inv_transform (permute sample [0; 2; 3; 1])) in
       let sample := recover_from_ric sample n_joints in
       let sample := permute (view sample (-1 :: drop 2 (tensor_shape sample))) [0; 2; 3; 1] in
       mret (sample, Some n_joints)
     else mret (sample, ls_n_joints st));
  mret {| ls_kwargs := kw;
          ls_n_joints := n_joints;
          ls_all_motions := (ls_all_motions st ++ [sample])%list;
          ls_all_lengths := (ls_all_lengths st ++ [kw_lengths kw])%list;
          ls_all_text := (ls_all_text st ++ kw_text kw)%list |}.

(** lines 120-153: [for rep_i in range(args.num_repetitions)] *)
Fixpoint repetitions (a : Args) (model : Model) (T : nat) (reps : list nat)
    (st : LoopState) : script LoopState :=
  match reps with
  | [] => mret st
  | rep_i :: rest =>
      st' ← repetition a model T rep_i st;
      repetitions a model T rest st'
  end.

(** what lines 156-159 leave *)
Record Collected : Type := {
  all_motions : Tensor;
  all_text : list string;
  all_lengths : list Z
}.

(** lines 156-159; [np.concatenate] raises on an empty list *)
Definition collect (total_num_samples : Z) (st : LoopState) : result Collected :=
  match ls_all_motions st with
  | [] => Raise ValueError
  | ms =>
      Ok {| all_motions := np_slice_to (np_concatenate ms) total_num_samples;
            all_text := py_take total_num_samples (ls_all_text st);
            all_lengths := py_take total_num_samples (mjoin (ls_all_lengths st)) |}
  end.

(** lines 161-163 *)
Definition prepare_out_dir (out_path : string) : script unit :=
  ex ← path_exists out_path;
  _ ← (if ex : bool then rmtree out_path else mret tt);
  makedirs out_path.

(** lines 165-173 *)
Definition save_results (a : Args) (out_path : string) (c : Collected) : script unit :=
  let npy_path := Path.join out_path "results.npy" in
  _ ← write_file npy_path
        (NpyFile {| r_motion := all_motions c; r_text := all_text c;
                    r_lengths := all_lengths c; r_num_samples := num_samples a;
                    r_num_repetitions := num_repetitions a |});
  _ ← write_file (Str.replace ".npy" ".txt" npy_path)
        (TextFile (Str.join newline (all_text c)));
  write_file (Str.replace ".npy" "_len.txt" npy_path)
    (TextFile (Str.join newline (map Str.of_int (all_lengths c)))).

(** lines 204-219, one repetition of one sample; returns the path of the
    clip and the animation *)
Definition plot_repetition (a : Args) (out_path : string) (skeleton : Skeleton)
    (gt : gt_frames) (c : Collected) (sample_i : nat) (rep_i : nat)
    : script (string * Animation) :=
  let idx := Z.of_nat rep_i * batch_size a + Z.of_nat sample_i in
  caption ← lift (py_index (all_text c) idx);
  let caption :=
    if Str.eqb caption "" then "Edit [" +:+ edit_mode_name (edit_mode a) +:+ "] unconditioned"
    else "Edit [" +:+ edit_mode_name (edit_mode a) +:+ "]: " +:+ caption in
  length ← lift (py_index (all_lengths c) idx);
  let motion := np_slice_to (np_transpose (np_item (all_motions c) idx) [2; 0; 1]) length in
  let save_file := "sample" +:+ Str.format_02d (Z.of_nat sample_i) +:+ "_rep"
                   +:+ Str.format_02d (Z.of_nat rep_i) +:+ ".mp4" in
  let animation_save_path := Path.join out_path save_file in
  let gt_frames := default [] (gt !! sample_i) in
  let call := {| pc_save_path := animation_save_path; pc_skeleton := skeleton;
                 pc_motion := motion; pc_dataset := dataset a; pc_title := caption;
                 pc_fps := 30; pc_gt_frames := gt_frames; pc_global_coords := false |} in
  _ ← emit (EvPlot call);
  mret (animation_save_path, plot_3d_motion call).

(** lines 204-219: [for rep_i in range(args.num_repetitions)] *)
Fixpoint plot_repetitions (a : Args) (out_path : string) (skeleton : Skeleton)
    (gt : gt_frames) (c : Collected) (sample_i : nat) (reps : list nat)
    : script (list (string * Animation)) :=
  match reps with
  | [] => mret []
  | rep_i :: rest =>
      r ← plot_repetition a out_path skeleton gt c sample_i rep_i;
      rs ← plot_repetitions a out_path skeleton gt c sample_i rest;
      mret (r :: rs)
  end.

(** lines 222-225 *)
Definition ffmpeg_rep_cmd (a : Args) (out_path : string) (sample_i : nat)
    (rep_files : list string) : string :=
  let all_rep_save_file :=
    Path.join out_path ("sample" +:+ Str.format_02d (Z.of_nat sample_i) +:+ ".mp4") in
  let ffmpeg_rep_files := map (fun f => " -i " +:+ f +:+ " ") rep_files in
  let hstack_args := " -filter_complex hstack=inputs=" +:+ Str.of_int (num_repetitions a + 1) in
  "ffmpeg -y -loglevel warning " +:+ Str.join "" ffmpeg_rep_files
  +:+ hstack_args +:+ " " +:+ all_rep_save_file.

(** lines 193-227, one sample; returns the row of animations.  The motion
    of line 195 is an argument of the call of [plot_3d_motion] that is
    commented out, and of nothing else: the input clip is only named. *)
Definition visualize_sample (a : Args) (out_path : string) (skeleton : Skeleton)
    (kw : Kwargs Tensor) (gt : gt_frames) (c : Collected) (sample_i : nat)
    : script (list Animation) :=
  length ← lift (py_index (kw_lengths kw) (Z.of_nat sample_i));
  let save_file := "input_motion" +:+ Str.format_02d (Z.of_nat sample_i) +:+ ".mp4" in
  let animation_save_path := Path.join out_path save_file in
  rs ← plot_repetitions a out_path skeleton gt c sample_i
         (seq 0 (Z.to_nat (num_repetitions a)));
  let rep_files := animation_save_path :: map fst rs in
  _ ← emit (EvSystem (ffmpeg_rep_cmd a out_path sample_i rep_files));
  mret (map snd rs).

(** lines 192-227: [for sample_i in range(args.num_samples)] *)
Fixpoint visualize_samples (a : Args) (out_path : string) (skeleton : Skeleton)
    (kw : Kwargs Tensor) (gt : gt_frames) (c : Collected) (samples : list nat)
    : script (list (list Animation)) :=
  match samples with
  | [] => mret []
  | sample_i :: rest =>
      row ← visualize_sample a out_path skeleton kw gt c sample_i;
      rows ← visualize_samples a out_path skeleton kw gt c rest;
      mret (row :: rows)
  end.

(** [max(l)] *)
Definition py_max (l : list Z) : result Z :=
  match l with
  | [] => Raise ValueError
  | x :: rest => Ok (foldl Z.max x rest)
  end.

(** lines 175-229; returns the input motions as they are after line 182 *)
Definition visualize (a : Args) (model : Model) (b : Batch Tensor) (out_path : string)
    (st : LoopState) (gt : gt_frames) (c : Collected) : script Tensor :=
  let skeleton := if Str.eqb (dataset a) "kit" then kit_kinematic_chain
                  else t2m_kinematic_chain in
  motions ←
    (if Str.eqb (data_rep model) "hml_vec" then
       match ls_n_joints st with
       | None => lift (Raise NameError)
       | Some n_joints =>
           let m := to_float (inv_transform (permute (input_motions b) [0; 2; 3; 1])) in
           let m := recover_from_ric m n_joints in
           mret (permute (view m (-1 :: drop 2 (tensor_shape m))) [0; 2; 3; 1])
       end
     else mret (input_motions b));
  _ ← lift (py_max (all_lengths c));
  animations ← visualize_samples a out_path skeleton (ls_kwargs st) gt c
                 (seq 0 (Z.to_nat (num_samples a)));
  max_len ← lift (py_max (all_lengths c ++ [Z.of_nat (max_frames b)])%list);
  _ ← emit (EvSaveMultiple out_path (all_file_template (unconstrained a)) animations 30 max_len);
  mret motions.

(** [main], with what the imported loaders return: the batch, the model
    and the array of the mask file *)
Definition main (a : Args) (b : Batch Tensor) (model : Model) (mask_np : ndarray)
    : script unit :=
  let out_path := resolve_out_path a in
  a ← lift (check_batch_size a);
  let total_num_samples := num_samples a * num_repetitions a in
  let texts := replicate (Z.to_nat (num_samples a)) (text_condition a) in
  let a := if Str.eqb (text_condition a) "" then set_guidance_param 0%float a else a in
  '(mask, gt) ← lift (inpainting_mask HML_LOWER_BODY_MASK a b mask_np);
  let kw := {| kw_inpainted_motion := input_motions b; kw_inpainting_mask := mask;
               kw_text := texts; kw_lengths := lengths b; kw_scale := None |} in
  st ← repetitions a model (max_frames b) (seq 0 (Z.to_nat (num_repetitions a)))
         {| ls_kwargs := kw; ls_n_joints := None; ls_all_motions := [];
            ls_all_lengths := []; ls_all_text := [] |};
  c ← lift (collect total_num_samples st);
  _ ← prepare_out_dir out_path;
  _ ← save_results a out_path c;
  _ ← visualize a model b out_path st gt c;
  mret tt.

End Script.

(** ** A model of the interface for running examples

    Every tensor is its shape and an animation is the path it was asked
    to be saved at. *)

Definition shape_permute (s p : list Z) : list Z :=
  map (fun k => nth (Z.to_nat k) s 0) p.

(** [t.view(-1, *rest)] on a tensor of shape [s] *)
Definition shape_view (s target : list Z) : list Z :=
  match s, target with
  | d0 :: d1 :: _, -1 :: rest => d0 * d1 :: rest
  | _, _ => target
  end.

Definition shape_model : Externals := {|
  Tensor := list Z;
  Animation := string;
  tensor_shape := fun t => t;
  permute := shape_permute;
  to_float := fun t => t;
  view := shape_view;
  inv_transform := fun t => t;
  recover_from_ric := fun t n_joints => (removelast t ++ [n_joints; 3])%list;
  p_sample_loop := fun _ c => sc_shape c;
  np_concatenate := fun ts => foldr Z.add 0 (map (fun t => hd 0 t) ts) :: tail (hd [] ts);
  np_slice_to := fun t n => Z.min n (hd 0 t) :: tail t;
  np_item := fun t _ => tail t;
  np_transpose := shape_permute;
  plot_3d_motion := fun c => pc_save_path c;
  HML_LOWER_BODY_MASK := replicate 263 true;
  all_file_template := fun _ => "samples_{:02d}_to_{:02d}.mp4"
|}.

Definition example_args : Args := {|
  input_motion_path := "feat_mdm.npy";
  mask_path := "mask_mdm.npy";
  model_path := "./save/humanml_enc_512_50steps/model000750000.pt";
  output_dir := "";
  edit_mode := in_between;
  text_condition := "a person lunges forward.";
  seed := 10;
  num_samples := 1;
  batch_size := 64;
  num_repetitions := 2;
  prefix_end := 0.25%float;
  suffix_start := 0.75%float;
  guidance_param := 2.5%float;
  dataset := "humanml";
  unconstrained := false
|}.

Definition set_edit_mode (m : EditMode) (a : Args) : Args :=
  {| input_motion_path := input_motion_path a; mask_path := mask_path a;
     model_path := model_path a; output_dir := output_dir a;
     edit_mode := m; text_condition := text_condition a;
     seed := seed a; num_samples := num_samples a; batch_size := batch_size a;
     num_repetitions := num_repetitions a; prefix_end := prefix_end a;
     suffix_start := suffix_start a; guidance_param := guidance_param a;
     dataset := dataset a; unconstrained := unconstrained a |}.

Definition set_output_dir (d : string) (a : Args) : Args :=
  {| input_motion_path := input_motion_path a; mask_path := mask_path a;
     model_path := model_path a; output_dir := d;
     edit_mode := edit_mode a; text_condition := text_condition a;
     seed := seed a; num_samples := num_samples a; batch_size := batch_size a;
     num_repetitions := num_repetitions a; prefix_end := prefix_end a;
     suffix_start := suffix_start a; guidance_param := guidance_param a;
     dataset := dataset a; unconstrained := unconstrained a |}.

Definition set_prefix_end (r : float) (a : Args) : Args :=
  {| input_motion_path := input_motion_path a; mask_path := mask_path a;
     model_path := model_path a; output_dir := output_dir a;
     edit_mode := edit_mode a; text_condition := text_condition a;
     seed := seed a; num_samples := num_samples a; batch_size := batch_size a;
     num_repetitions := num_repetitions a; prefix_end := r;
     suffix_start := suffix_start a; guidance_param := guidance_param a;
     dataset := dataset a; unconstrained := unconstrained a |}.

(** one motion of 8 frames in the HumanML3D representation *)
Definition example_batch : Batch (@Tensor shape_model) := {|
  input_motions := [1; 263; 1; 8];
  in_njoints := 263; in_nfeats := 1; max_frames := 8;
  lengths := [8]
|}.

(** one motion of 4 frames with a single feature row *)
Definition small_batch : Batch (@Tensor shape_model) := {|
  input_motions := [1; 1; 1; 4];
  in_njoints := 1; in_nfeats := 1; max_frames := 4;
  lengths := [4]
|}.

(** one motion of 2 frames in the KIT representation, 251 features *)
Definition kit_batch : Batch (@Tensor shape_model) := {|
  input_motions := [1; 251; 1; 2];
  in_njoints := 251; in_nfeats := 1; max_frames := 2;
  lengths := [2]
|}.

Definition example_model : Model := {| njoints := 263; nfeats := 1; data_rep := "hml_vec" |}.

Definition example_mask_np : ndarray := array1 [1; 1; 0; 0; 0; 0; 1; 1].

(** the value of a result, [d] when it is an exception *)
Definition result_get {A : Type} (d : A) (r : result A) : A :=
  match r with
  | Ok x => x
  | Raise _ => d
  end.

(** the example arguments once [batch_size] is [num_samples] *)
Definition small_args : Args := set_batch_size 1 example_args.

(** the state before the first repetition, as [main] builds it for
    [small_batch] *)
Definition small_state : @LoopState shape_model :=
  @Build_LoopState shape_model
    {| kw_inpainted_motion := [1; 1; 1; 4];
       kw_inpainting_mask := [[[[true; false; false; true]]]];
       kw_text := ["a person lunges forward."];
       kw_lengths := [4]; kw_scale := None |}
    None [] [] [].

Definition small_model : Model := {| njoints := 1; nfeats := 1; data_rep := "hml_vec" |}.

(** what lines 156-159 leave after two repetitions on [small_batch] *)
Definition small_collected : @Collected shape_model :=
  @Build_Collected shape_model [2; 21; 3; 4]
    ["a person lunges forward."; "a person lunges forward."] [4; 4].

(** an output directory whose name contains [.npy] *)
Definition npy_dir_args : Args := set_output_dir "runs.npy" example_args.

Definition empty_world `{E : Externals} : World := {| w_fs := ∅; w_log := [] |}.

(** the two repetitions of the example *)
Definition small_loop : result (@LoopState shape_model) * @World shape_model :=
  repetitions (E := shape_model) small_args small_model 4 (seq 0 2) small_state empty_world.

(** the clips of the example *)
Definition small_visualize : result (@Tensor shape_model) * @World shape_model :=
  visualize (E := shape_model) small_args small_model small_batch "out"
    (result_get small_state small_loop.1) {[ 0%nat := [0; 3] ]} small_collected empty_world.

(** the run whose output directory is [runs.npy/edit_...], on an empty disk *)
Definition npy_dir_run : result unit * @World shape_model :=
  main (E := shape_model) npy_dir_args small_batch example_model (array1 [1; 1; 0; 0])
    empty_world.

(** a disk on which the directory [runs.txt/edit_...] exists *)
Definition txt_dir_world : @World shape_model :=
  @Build_World shape_model
    {[ "runs.txt" := Dir;
       "runs.txt/edit_humanml_enc_512_50steps_000750000_in_between_seed10_a_person_lunges_forward" := Dir ]}
    [].

(** the same run on that disk *)
Definition txt_dir_run : result unit * @World shape_model :=
  main (E := shape_model) npy_dir_args small_batch example_model (array1 [1; 1; 0; 0])
    txt_dir_world.

Definition set_num_repetitions (n : Z) (a : Args) : Args :=
  {| input_motion_path := input_motion_path a; mask_path := mask_path a;
     model_path := model_path a; output_dir := output_dir a;
     edit_mode := edit_mode a; text_condition := text_condition a;
     seed := seed a; num_samples := num_samples a; batch_size := batch_size a;
     num_repetitions := n; prefix_end := prefix_end a;
     suffix_start := suffix_start a; guidance_param := guidance_param a;
     dataset := dataset a; unconstrained := unconstrained a |}.

(** a disk on which [out] is a file *)
Definition file_world : @World shape_model :=
  @Build_World shape_model {[ "out" := TextFile "notes" ]} [].

(** ** The claims in the words of the specification *)




(** the feature mask repeated over batch, features and frames *)
Definition upper_body_spec (hml_lower_body_mask : list bool) (B F T : nat) : mask4 :=
  replicate B (map (fun h => replicate F (replicate T h)) hml_lower_body_mask).

(** the mask of the file, one entry per frame, in every joint and feature
    of every sample; [J] is the size of the joint axis *)
Definition file_mask_spec (mask_np : ndarray) (B J F : nat) : mask4 :=
  replicate B (replicate J (replicate F (torch_bool mask_np))).

(** the size of the joint axis of the mask of lines 92-104 *)
Definition mask_joints {Tensor : Type} (hml_lower_body_mask : list bool) (a : Args)
    (b : Batch Tensor) : nat :=
  match edit_mode a with
  | in_between => in_njoints b
  | upper_body => length hml_lower_body_mask
  end.

(** every sample of a mask has [J] joints, [F] features and [T] frames *)
Definition well_shaped (J F T : nat) (m : mask4) : Prop :=
  Forall (fun sample => length sample = J /\
            Forall (fun joint => length joint = F /\
                      Forall (fun frames => length frames = T) joint) sample) m.

(** no occurrence of [old] in [p +:+ rest] starts inside [p] *)
Fixpoint free_of (old p rest : string) : bool :=
  match p with
  | EmptyString => true
  | String _ p' => negb (String.prefix old (p +:+ rest)) && free_of old p' rest
  end.

Section Traces.
Context `{E : Externals}.

(** the calls of the sampler in a log *)
Definition sample_calls (log : list event) : list (SampleCall Tensor) :=
  omap (fun e => match e with EvSample c => Some c | _ => None end) log.

(** the shell commands in a log *)
Definition system_cmds (log : list event) : list string :=
  omap (fun e => match e with EvSystem c => Some c | _ => None end) log.

(** the paths [plot_3d_motion] was called with *)
Definition plotted_paths (log : list event) : list string :=
  omap (fun e => match e with EvPlot c => Some (pc_save_path c) | _ => None end) log.

(** a step only adds events to the log, and every event it adds satisfies [P] *)
Definition emits_only {A : Type} (P : event -> Prop) (s : script A) : Prop :=
  forall w, exists evs, w_log (s w).2 = (w_log w ++ evs)%list /\ Forall P evs.


(** the arguments of every call of the sampler, lines 128-139 *)
Definition sample_call_spec (a : Args) (model : Model) (T : nat) (c : SampleCall Tensor) : Prop :=
  sc_shape c = [batch_size a; njoints model; nfeats model; Z.of_nat T] /\
  sc_skip_timesteps c = 0 /\ sc_init_image c = None /\ sc_noise c = None /\
  sc_clip_denoised c = false.

(** the conversion of a batch in the HumanML3D representation to joint positions *)
Definition joint_positions_spec (n_joints : Z) (x : Tensor) : Tensor :=
  let y := recover_from_ric (to_float (inv_transform (permute x [0; 2; 3; 1]))) n_joints in
  permute (view y (-1 :: drop 2 (tensor_shape y))) [0; 2; 3; 1].

Definition n_joints_spec (sample : Tensor) : Z :=
  if bool_decide (tensor_shape sample !! 1%nat = Some 263) then 22 else 21.

(** the call of lines 128-139 with the keyword arguments [kw] *)
Definition the_call (a : Args) (model : Model) (T : nat) (kw : Kwargs Tensor)
    : SampleCall Tensor :=
  {| sc_shape := [batch_size a; njoints model; nfeats model; Z.of_nat T];
     sc_clip_denoised := false; sc_model_kwargs := kw;
     sc_skip_timesteps := 0; sc_init_image := None; sc_progress := true;
     sc_dump_steps := None; sc_noise := None; sc_const_noise := false |}.

(** what one repetition stores for the sample [x] *)
Definition stored_motion (model : Model) (x : Tensor) : Tensor :=
  if Str.eqb (data_rep model) "hml_vec" then joint_positions_spec (n_joints_spec x) x else x.

(** the paths of the clips of sample [i] *)
Definition input_clip (out_path : string) (i : nat) : string :=
  Path.join out_path ("input_motion" +:+ Str.format_02d (Z.of_nat i) +:+ ".mp4").

Definition rep_clip (out_path : string) (i r : nat) : string :=
  Path.join out_path ("sample" +:+ Str.format_02d (Z.of_nat i) +:+ "_rep"
                      +:+ Str.format_02d (Z.of_nat r) +:+ ".mp4").

(** the command for sample [i]: the input clip first, then one clip per repetition *)
Definition ffmpeg_spec (a : Args) (out_path : string) (i : nat) : string :=
  let inputs := input_clip out_path i
                :: map (rep_clip out_path i) (seq 0 (Z.to_nat (num_repetitions a))) in
  "ffmpeg -y -loglevel warning "
  +:+ Str.join "" (map (fun f => " -i " +:+ f +:+ " ") inputs)
  +:+ " -filter_complex hstack=inputs=" +:+ Str.of_int (num_repetitions a + 1)
  +:+ " " +:+ Path.join out_path ("sample" +:+ Str.format_02d (Z.of_nat i) +:+ ".mp4").

End Traces.

(** What the script relies on from the imported tensor functions: the
    shapes they return. *)
Class ShapeLaws (E : Externals) : Prop := {
  shape_of_permute : forall t p,
    tensor_shape (permute t p) = map (fun k => nth (Z.to_nat k) (tensor_shape t) 0) p;
  shape_of_to_float : forall t, tensor_shape (to_float t) = tensor_shape t;
  shape_of_inv_transform : forall t, tensor_shape (inv_transform t) = tensor_shape t;
  shape_of_recover_from_ric : forall t n_joints,
    tensor_shape (recover_from_ric t n_joints) = (removelast (tensor_shape t) ++ [n_joints; 3])%list;
  shape_of_view : forall t d0 d1 rest,
    tensor_shape t = d0 :: d1 :: rest ->
    tensor_shape (view t (-1 :: rest)) = d0 * d1 :: rest;
  shape_of_sample : forall k c, tensor_shape (p_sample_loop k c) = sc_shape c
}.

(** ** Notions used in the further properties *)


(** the entry of a mask at sample [i], joint [j], feature [f] and frame [t] *)
Definition mask_at (m : mask4) (i j f t : nat) : option bool :=
  sample ← m !! i; joint ← sample !! j; frames ← joint !! f; frames !! t.


(** [c] occurs in [s] *)
Fixpoint has_char (c : ascii) (s : string) : bool :=
  match s with
  | EmptyString => false
  | String d s' => bool_decide (c = d) || has_char c s'
  end.

(** the directory the output directory is made in, lines 44-50 *)
Definition base_dir (a : Args) : string :=
  if Str.eqb (output_dir a) "" then Path.dirname (model_path a) else output_dir a.

Section Notions.
Context `{E : Externals}.




(** a step that never ends on the exception [e] *)
Definition never_raises {A : Type} (e : exn) (s : script A) : Prop :=
  forall w w', s w <> (Raise e, w').

End Notions.

(** * Properties *)

(** ** Steps of the script and the log *)

Section Steps.
Context `{E : Externals}.

Lemma bind_run {A B : Type} (m : script A) (k : A -> script B) (w : World) :
  (m ≫= k) w = match m w with
               | (Ok x, w') => k x w'
               | (Raise e, w') => (Raise e, w')
               end.
Proof. reflexivity. Qed.

Lemma bind_ok {A B : Type} (m : script A) (k : A -> script B) (w w' : World) (y : B) :
  (m ≫= k) w = (Ok y, w') ->
  exists x w1, m w = (Ok x, w1) /\ k x w1 = (Ok y, w').
Proof.
  rewrite bind_run. destruct (m w) as [[x|e] w1]; [eauto | discriminate].
Qed.

Lemma lift_ok {A : Type} (r : result A) (w w' : World) (x : A) :
  lift r w = (Ok x, w') -> r = Ok x /\ w' = w.
Proof. unfold lift. intros [= -> ->]. done. Qed.

Lemma emit_ok (e : event) (w w' : World) (u : unit) :
  emit e w = (Ok u, w') -> w_log w' = (w_log w ++ [e])%list /\ w_fs w' = w_fs w.
Proof. unfold emit. intros [= _ <-]. done. Qed.

Lemma emits_only_ret {A : Type} (P : event -> Prop) (x : A) : emits_only P (mret x).
Proof. intros w. exists []. by rewrite app_nil_r. Qed.

Lemma emits_only_lift {A : Type} (P : event -> Prop) (r : result A) : emits_only P (lift r).
Proof. intros w. exists []. by rewrite app_nil_r. Qed.

Lemma emits_only_emit (P : event -> Prop) (e : event) : P e -> emits_only P (emit e).
Proof. intros He w. exists [e]. split; [reflexivity | by constructor]. Qed.

Lemma emits_only_with_fs (P : event -> Prop) f : emits_only P (with_fs f).
Proof.
  intros w. exists []. unfold with_fs. rewrite app_nil_r.
  by destruct (f (w_fs w)).
Qed.

Lemma emits_only_path_exists (P : event -> Prop) (p : string) : emits_only P (path_exists p).
Proof. intros w. exists []. by rewrite app_nil_r. Qed.

Lemma emits_only_bind {A B : Type} (P : event -> Prop) (m : script A) (k : A -> script B) :
  emits_only P m -> (forall x, emits_only P (k x)) -> emits_only P (m ≫= k).
Proof.
  intros Hm Hk w. rewrite bind_run. destruct (Hm w) as (evs1 & Hlog1 & HP1).
  destruct (m w) as [[x|e] w1]; cbn in *; [| eauto].
  destruct (Hk x w1) as (evs2 & Hlog2 & HP2).
  exists (evs1 ++ evs2)%list. split; [| by apply Forall_app].
  by rewrite Hlog2, Hlog1, app_assoc.
Qed.

Lemma emits_only_bind_lift {A B : Type} (P : event -> Prop) (r : result A) (k : A -> script B) :
  (forall x, r = Ok x -> emits_only P (k x)) -> emits_only P (lift r ≫= k).
Proof.
  intros Hk w. rewrite bind_run. unfold lift.
  destruct r as [x|e]; [by apply Hk |]. exists []. by rewrite app_nil_r.
Qed.

End Steps.

(** ** The output path *)


Example out_path_model_dir :
  resolve_out_path example_args
  = "./save/humanml_enc_512_50steps/edit_humanml_enc_512_50steps_000750000_in_between_seed10_a_person_lunges_forward".
Proof. reflexivity. Qed.

Example out_path_output_dir :
  resolve_out_path (set_output_dir "out" example_args)
  = "out/edit_humanml_enc_512_50steps_000750000_in_between_seed10_a_person_lunges_forward".
Proof. reflexivity. Qed.

(** ** The events of the phases of [main] *)

Ltac log_step :=
  first [ apply emits_only_bind; [| intros ? ]
        | apply emits_only_ret | apply emits_only_lift
        | apply emits_only_with_fs | apply emits_only_path_exists ].

Section Events.
Context `{E : Externals}.
Variable P : event -> Prop.

Lemma emits_only_repetition (a : Args) (model : Model) (T rep_i : nat) (st : LoopState) :
  (forall s kw, ones_times (batch_size a) (guidance_param a) = Ok s ->
     P (EvSample {| sc_shape := [batch_size a; njoints model; nfeats model; Z.of_nat T];
                    sc_clip_denoised := false; sc_model_kwargs := set_scale s kw;
                    sc_skip_timesteps := 0; sc_init_image := None; sc_progress := true;
                    sc_dump_steps := None; sc_noise := None; sc_const_noise := false |})) ->
  emits_only P (repetition a model T rep_i st).
Proof.
  intros HP. unfold repetition.
  apply emits_only_bind_lift. intros s Hs.
  apply emits_only_bind; [apply emits_only_emit, HP, Hs | intros _].
  apply emits_only_bind; [| intros [? ?]; apply emits_only_ret].
  destruct (Str.eqb (data_rep model) "hml_vec"); repeat log_step.
Qed.

Lemma emits_only_repetitions (a : Args) (model : Model) (T : nat) (reps : list nat) (st : LoopState) :
  (forall s kw, ones_times (batch_size a) (guidance_param a) = Ok s ->
     P (EvSample {| sc_shape := [batch_size a; njoints model; nfeats model; Z.of_nat T];
                    sc_clip_denoised := false; sc_model_kwargs := set_scale s kw;
                    sc_skip_timesteps := 0; sc_init_image := None; sc_progress := true;
                    sc_dump_steps := None; sc_noise := None; sc_const_noise := false |})) ->
  emits_only P (repetitions a model T reps st).
Proof.
  intros HP. revert st. induction reps as [|r reps IH]; intros st; cbn.
  - apply emits_only_ret.
  - apply emits_only_bind; [by apply emits_only_repetition | intros st'; apply IH].
Qed.

Lemma emits_only_prepare_out_dir (out_path : string) : emits_only P (prepare_out_dir out_path).
Proof.
  unfold prepare_out_dir, rmtree, makedirs. repeat log_step.
  destruct x; repeat log_step.
Qed.

Lemma emits_only_save_results (a : Args) (out_path : string) (c : Collected) :
  emits_only P (save_results a out_path c).
Proof. unfold save_results, write_file. repeat log_step. Qed.

Lemma emits_only_plot_repetitions (a : Args) (out_path : string) (sk : Skeleton)
    (gt : gt_frames) (c : Collected) (i : nat) (reps : list nat) :
  (forall call r, pc_save_path call = rep_clip out_path i r -> P (EvPlot call)) ->
  emits_only P (plot_repetitions a out_path sk gt c i reps).
Proof.
  intros HP. induction reps as [|r reps IH]; cbn; [apply emits_only_ret |].
  apply emits_only_bind; [| intros ?; repeat log_step; apply IH].
  unfold plot_repetition. repeat log_step.
  apply emits_only_emit. by apply (HP _ r).
Qed.

Lemma emits_only_visualize_samples (a : Args) (out_path : string) (sk : Skeleton)
    (kw : Kwargs Tensor) (gt : gt_frames) (c : Collected) (samples : list nat) :
  (forall call i r, pc_save_path call = rep_clip out_path i r -> P (EvPlot call)) ->
  (forall cmd, P (EvSystem cmd)) ->
  emits_only P (visualize_samples a out_path sk kw gt c samples).
Proof.
  intros HP HS. induction samples as [|i samples IH]; cbn; [apply emits_only_ret |].
  apply emits_only_bind; [| intros ?; repeat log_step; apply IH].
  unfold visualize_sample. repeat log_step.
  - apply emits_only_plot_repetitions. intros call r. apply HP.
  - apply emits_only_emit, HS.
Qed.

Lemma emits_only_visualize (a : Args) (model : Model) (b : Batch Tensor) (out_path : string)
    (st : LoopState) (gt : gt_frames) (c : Collected) :
  (forall call i r, pc_save_path call = rep_clip out_path i r -> P (EvPlot call)) ->
  (forall cmd, P (EvSystem cmd)) ->
  (forall o t an f m, P (EvSaveMultiple o t an f m)) ->
  emits_only P (visualize a model b out_path st gt c).
Proof.
  intros HP HS HM. unfold visualize. repeat log_step.
  - destruct (Str.eqb (data_rep model) "hml_vec"); [| apply emits_only_ret].
    destruct (ls_n_joints st); repeat log_step.
  - by apply emits_only_visualize_samples.
  - apply emits_only_emit, HM.
Qed.

End Events.

(** ** The batch size *)

Section BatchSize.
Context `{E : Externals}.

Lemma check_batch_size_ok (a : Args) :
  num_samples a <= batch_size a ->
  check_batch_size a = Ok (set_batch_size (num_samples a) a).
Proof.
  intros H. unfold check_batch_size, assert.
  apply Z.leb_le in H. rewrite H. reflexivity.
Qed.

Lemma check_batch_size_fails (a : Args) :
  batch_size a < num_samples a -> check_batch_size a = Raise AssertionError.
Proof.
  intros H. unfold check_batch_size, assert.
  apply Z.leb_gt in H. rewrite H. reflexivity.
Qed.

(** a failed assertion ends the run before anything is sampled or written *)
Lemma main_assertion_fails (a : Args) (b : Batch Tensor) (model : Model)
    (mask_np : ndarray) (w : World) :
  batch_size a < num_samples a ->
  main a b model mask_np w = (Raise AssertionError, w).
Proof.
  intros H. unfold main. rewrite bind_run, (check_batch_size_fails a H). reflexivity.
Qed.

Lemma ones_times_length (n : Z) (g : float) (s : list float) :
  ones_times n g = Ok s -> Z.of_nat (length s) = n.
Proof.
  unfold ones_times. destruct (n <? 0) eqn:Hn; [discriminate |].
  intros [= <-]. rewrite length_map, length_replicate. apply Z.ltb_ge in Hn. lia.
Qed.

(** C9: [num_samples <= batch_size] is asserted first and [batch_size]
    becomes [num_samples]: when the inequality holds the assertion passes,
    the run is the run with [batch_size = num_samples] from the start, and
    every call of the sampler has [num_samples] as the first entry of its
    shape and a scale tensor of [num_samples] entries. *)
Theorem C9_batch_size_is_num_samples (a : Args) (b : Batch Tensor) (model : Model)
    (mask_np : ndarray) :
  num_samples a <= batch_size a ->
  let a' := set_batch_size (num_samples a) a in
  check_batch_size a = Ok a' /\ batch_size a' = num_samples a /\
  (forall w, main a b model mask_np w = main a' b model mask_np w) /\
  emits_only (fun e => forall c, e = EvSample c ->
             sc_shape c = [num_samples a; njoints model; nfeats model; Z.of_nat (max_frames b)] /\
             exists s, kw_scale (sc_model_kwargs c) = Some s /\
                       Z.of_nat (length s) = num_samples a)
          (main a b model mask_np).
Proof.
  intros H a'. pose proof (check_batch_size_ok a H) as Hc.
  split; [exact Hc |]. split; [reflexivity |]. split.
  - intros w. unfold main. rewrite !bind_run, Hc.
    assert (check_batch_size a' = Ok a') as ->.
    { apply (check_batch_size_ok a'). cbn. lia. }
    reflexivity.
  - unfold main. apply emits_only_bind_lift. intros a1 Ha1.
    rewrite Hc in Ha1. injection Ha1 as <-.
    apply emits_only_bind; [apply emits_only_lift | intros [mask gt]].
    apply emits_only_bind.
    { apply emits_only_repetitions. intros s kw Hs c [= <-].
      apply ones_times_length in Hs. cbn in *.
      destruct (Str.eqb (text_condition a) ""); cbn in *.
      all: split; [reflexivity |]; exists s; split; [reflexivity | exact Hs]. }
    intros st. apply emits_only_bind; [apply emits_only_lift | intros c].
    apply emits_only_bind; [apply emits_only_prepare_out_dir | intros _].
    apply emits_only_bind; [apply emits_only_save_results | intros _].
    apply emits_only_bind; [| intros _; apply emits_only_ret].
    apply emits_only_visualize; intros; discriminate.
Qed.

End BatchSize.

Lemma C9_witness :
  check_batch_size example_args = Ok (set_batch_size 1 example_args) /\
  (main (E := shape_model) example_args example_batch example_model example_mask_np empty_world).1
  = Ok tt.
Proof.
  split.
  - apply (C9_batch_size_is_num_samples (E := shape_model) example_args example_batch
             example_model example_mask_np).
    cbn. lia.
  - vm_compute. reflexivity.
Defined.

(** ** The inpainting mask *)

Section Masks.

Lemma tile_singleton {A : Type} (n : nat) (x : A) : tile n [x] = replicate n x.
Proof. unfold tile. induction n as [|n IH]; cbn; [done | f_equal; exact IH]. Qed.

Lemma tile_once {A : Type} (l : list A) : tile 1 l = l.
Proof. unfold tile. cbn. apply app_nil_r. Qed.

Lemma upper_body_mask (hml : list bool) (B F T : nat) :
  torch_repeat4 B 1 F T (unsqueeze_0_m1_m1 hml) = upper_body_spec hml B F T.
Proof.
  unfold torch_repeat4, unsqueeze_0_m1_m1, upper_body_spec. cbn [map].
  rewrite tile_singleton, tile_once, map_map. f_equal.
  apply map_ext. intros h. cbn [map]. by rewrite !tile_singleton.
Qed.

Lemma slice_fill_length (s e : Z) (v : bool) (row : list bool) :
  length (slice_fill s e v row) = length row.
Proof. unfold slice_fill. apply length_imap. Qed.


Lemma ones_like_well_shaped (B J F T : nat) : well_shaped J F T (ones_like B J F T).
Proof.
  unfold well_shaped, ones_like.
  apply Forall_replicate. split; [apply length_replicate |].
  apply Forall_replicate. split; [apply length_replicate |].
  apply Forall_replicate, length_replicate.
Qed.

Lemma upper_body_well_shaped (hml : list bool) (B F T : nat) :
  well_shaped (length hml) F T (upper_body_spec hml B F T).
Proof.
  unfold well_shaped, upper_body_spec.
  apply Forall_replicate. split; [apply length_map |].
  change (map ?f ?l) with (f <$> l). apply Forall_fmap, Forall_true. intros h. cbn.
  split; [apply length_replicate |]. apply Forall_replicate, length_replicate.
Qed.


Lemma fill_frames_shape (J F T i : nat) (s e : Z) (v : bool) (m m' : mask4) :
  well_shaped J F T m -> fill_frames i s e v m = Ok m' ->
  well_shaped J F T m' /\ length m' = length m.
Proof.
  unfold fill_frames, well_shaped. intros Hm H.
  destruct (m !! i) as [sample|] eqn:Hi; [| discriminate].
  injection H as <-. split; [| apply length_insert].
  apply Forall_insert; [exact Hm |].
  eapply Forall_lookup_1 in Hm as [HJ HF]; [| exact Hi].
  split; [by rewrite length_map |].
  change (map ?f ?l) with (f <$> l). apply Forall_fmap.
  eapply Forall_impl; [exact HF |]. intros joint [HF1 HF2]. cbn.
  split; [by rewrite length_fmap |].
  apply Forall_fmap. eapply Forall_impl; [exact HF2 |]. intros fr Hfr. cbn.
  by rewrite slice_fill_length.
Qed.

Lemma in_between_loop_shape (a : Args) (J F T : nat) (ls : list Z) :
  forall (i : nat) (m : mask4) (gt : gt_frames) (m' : mask4) (gt' : gt_frames),
  well_shaped J F T m ->
  in_between_loop a T i ls (m, gt) = Ok (m', gt') ->
  well_shaped J F T m' /\ length m' = length m.
Proof.
  induction ls as [|L ls IH]; intros i m gt m' gt' Hm H; cbn in H.
  - by injection H as <- <-.
  - destruct (frame_index (prefix_end a) L) as [s|]; [| discriminate]. cbn in H.
    destruct (frame_index (suffix_start a) L) as [e|]; [| discriminate]. cbn in H.
    destruct (fill_frames i s e false m) as [m1|] eqn:Hf; [| discriminate]. cbn in H.
    destruct (fill_frames_shape J F T _ _ _ _ _ _ Hm Hf) as [Hm1 Hl1].
    destruct (IH _ _ _ _ _ Hm1 H) as [Hm' Hl']. split; [exact Hm' | congruence].
Qed.


Lemma mapM_ok {A B : Type} (f : A -> result B) (g : A -> B) (l : list A) :
  Forall (fun x => f x = Ok (g x)) l -> mapM f l = Ok (g <$> l).
Proof.
  induction 1 as [|x l Hx _ IH]; [reflexivity |].
  cbn. rewrite Hx. cbn. rewrite IH. reflexivity.
Qed.

Lemma broadcast_row_ok (mask_t row : list bool) :
  length row = length mask_t -> broadcast_row mask_t row = Ok mask_t.
Proof.
  intros H. unfold broadcast_row. rewrite bool_decide_eq_true_2; done.
Qed.

Lemma assign_frames_ok (J F : nat) (i : nat) (mask_t : list bool) (m : mask4) :
  well_shaped J F (length mask_t) m -> (i < length m)%nat ->
  assign_frames i mask_t m = Ok (<[i := replicate J (replicate F mask_t)]> m).
Proof.
  intros Hm Hi. unfold assign_frames.
  destruct (lookup_lt_is_Some_2 m i Hi) as [sample Hs]. rewrite Hs.
  eapply Forall_lookup_1 in Hm as [HJ HF]; [| exact Hs].
  rewrite (mapM_ok _ (fun _ => replicate F mask_t)).
  - cbn. by rewrite (const_fmap _ _ (replicate F mask_t)), HJ.
  - eapply Forall_impl; [exact HF |]. intros joint [HF1 HF2]. cbn in *.
    rewrite (mapM_ok _ (fun _ => mask_t)).
    + by rewrite (const_fmap _ _ mask_t), HF1.
    + eapply Forall_impl; [exact HF2 |]. intros fr Hfr. by apply broadcast_row_ok.
Qed.

Lemma nd_shape_one (mask_np : ndarray) (T : nat) :
  nd_shape mask_np = [Z.of_nat T] -> length (nd_entries mask_np) = T.
Proof.
  destruct mask_np as [r d]. unfold nd_shape, nd_entries. cbn.
  destruct r as [|[|r]]; cbn in *.
  - discriminate.
  - intros [= H]. lia.
  - intros [= _ H]. destruct d as [|row d]; cbn in H; [discriminate |].
    destruct row; discriminate.
Qed.

Lemma torch_bool_length (mask_np : ndarray) (T : nat) :
  nd_shape mask_np = [Z.of_nat T] -> length (torch_bool mask_np) = T.
Proof. intros H. unfold torch_bool. rewrite length_map. by apply nd_shape_one. Qed.

(** the loop of lines 112-114 on a mask of the shape of the motions *)
Lemma mask_file_loop_spec (mask_np : ndarray) (J F : nat) (ls : list Z) :
  forall (i : nat) (rest : mask4) (gt : gt_frames),
  well_shaped J F (length (torch_bool mask_np)) rest ->
  length rest = length ls ->
  exists gt',
    mask_file_loop mask_np i ls
      ((replicate i (replicate J (replicate F (torch_bool mask_np))) ++ rest)%list, gt)
    = Ok (replicate (i + length ls) (replicate J (replicate F (torch_bool mask_np))), gt') /\
    forall k, gt' !! k = if decide (i <= k < i + length ls)%nat
                         then Some (nd_nonzero mask_np) else gt !! k.
Proof.
  induction ls as [|L ls IH]; intros i rest gt Hm Hl.
  - destruct rest; [| discriminate]. cbn. rewrite app_nil_r, Nat.add_0_r.
    eexists. split; [reflexivity |]. intros k. case_decide; [lia | reflexivity].
  - destruct rest as [|sample rest]; [discriminate |]. cbn [mask_file_loop fst snd].
    rewrite (assign_frames_ok J F).
    + cbn. rewrite insert_app_r_alt, length_replicate, Nat.sub_diag
        by (rewrite length_replicate; lia).
      cbn [insert list_insert].
      rewrite (cons_middle _ (replicate i _)), app_assoc.
      change [replicate J (replicate F (torch_bool mask_np))]
        with (replicate 1 (replicate J (replicate F (torch_bool mask_np)))).
      rewrite <- replicate_add. replace (i + 1)%nat with (S i) by lia.
      apply Forall_cons in Hm as [_ Hm]. injection Hl as Hl.
      destruct (IH (S i) rest (<[i := nd_nonzero mask_np]> gt) Hm Hl) as (gt' & Hgt' & Hk).
      exists gt'. split.
      { rewrite Hgt'. cbn [length].
        by replace (i + S (length ls))%nat with (S i + length ls)%nat by lia. }
      intros k. rewrite Hk. cbn [length].
      destruct (decide (k = i)) as [->|Hne].
      * rewrite lookup_insert_eq. repeat case_decide; (reflexivity || lia).
      * rewrite lookup_insert_ne by done. repeat case_decide; (reflexivity || lia).
    + apply Forall_app. split; [| exact Hm].
      apply Forall_replicate. split; [apply length_replicate |].
      apply Forall_replicate. split; [apply length_replicate |].
      by apply Forall_replicate.
    + rewrite length_app, length_replicate. cbn. lia.
Qed.

Context {Tensor : Type}.

Lemma edit_mask_shape (hml : list bool) (a : Args) (b : Batch Tensor) (m : mask4) (gt : gt_frames) :
  edit_mask hml a b = Ok (m, gt) ->
  well_shaped (mask_joints hml a b) (in_nfeats b) (max_frames b) m /\
  length m = length (lengths b).
Proof.
  unfold edit_mask, mask_joints. destruct (edit_mode a).
  - intros H. apply in_between_loop_shape with (J := in_njoints b) (F := in_nfeats b) in H.
    + destruct H as [H1 H2]. split; [exact H1 |].
      rewrite H2. unfold ones_like. apply length_replicate.
    + apply ones_like_well_shaped.
  - rewrite upper_body_mask. intros [= <- _].
    split; [apply upper_body_well_shaped |]. unfold upper_body_spec. apply length_replicate.
Qed.

(** lines 107-114 on the mask of lines 92-104, when the file holds one
    entry per frame *)
Lemma apply_mask_file_ok (hml : list bool) (a : Args) (b : Batch Tensor) (mask_np : ndarray)
    (st : mask4 * gt_frames) :
  mask_path a <> "" ->
  edit_mask hml a b = Ok st ->
  nd_shape mask_np = [Z.of_nat (max_frames b)] ->
  exists gt',
    apply_mask_file a b mask_np st
    = Ok (file_mask_spec mask_np (length (lengths b)) (mask_joints hml a b) (in_nfeats b), gt') /\
    forall i, (i < length (lengths b))%nat -> gt' !! i = Some (nd_nonzero mask_np).
Proof.
  intros Hp Hst Hsh. destruct st as [m gt].
  apply edit_mask_shape in Hst as [Hm Hl].
  unfold apply_mask_file, Str.eqb. rewrite bool_decide_eq_false_2 by exact Hp. cbn [negb].
  unfold assert. rewrite bool_decide_eq_true_2 by exact Hsh. cbn.
  rewrite <- (torch_bool_length mask_np _ Hsh) in Hm.
  destruct (mask_file_loop_spec mask_np _ _ (lengths b) 0 m gt Hm Hl) as (gt' & Hloop & Hgt).
  cbn in Hloop. exists gt'. split; [exact Hloop |].
  intros i Hi. rewrite Hgt. case_decide; [reflexivity | lia].
Qed.


(** C2, as amended: with a non-empty [args.mask_path] the mask of the edit
    mode is overwritten: every joint and feature of every sample holds the
    mask of the file over the frames, and [gt_frames_per_sample[i]] is the
    list of the non-zero indices of the file.  The edit mode is left in
    the size of the joint axis only (the joints of the input for
    [in_between], the length of the lower-body mask for [upper_body]): when
    the two sizes agree the final mask is the same for both modes. *)
Theorem C2_mask_file_overrides (hml : list bool) (a : Args) (b : Batch Tensor)
    (mask_np : ndarray) (m : mask4) (gt : gt_frames) :
  mask_path a <> "" ->
  inpainting_mask hml a b mask_np = Ok (m, gt) ->
  m = file_mask_spec mask_np (length (lengths b)) (mask_joints hml a b) (in_nfeats b) /\
  (forall i, (i < length (lengths b))%nat -> gt !! i = Some (nd_nonzero mask_np)) /\
  (length hml = in_njoints b ->
   forall mode' m' gt',
     inpainting_mask hml (set_edit_mode mode' a) b mask_np = Ok (m', gt') -> m' = m).
Proof.
  assert (forall a0 m0 gt0, mask_path a0 <> "" ->
            inpainting_mask hml a0 b mask_np = Ok (m0, gt0) ->
            m0 = file_mask_spec mask_np (length (lengths b)) (mask_joints hml a0 b) (in_nfeats b) /\
            (forall i, (i < length (lengths b))%nat -> gt0 !! i = Some (nd_nonzero mask_np)))
    as Hmain.
  { intros a0 m0 gt0 Hp H. unfold inpainting_mask in H.
    destruct (edit_mask hml a0 b) as [st|] eqn:Hst; [| discriminate]. cbn in H.
    destruct (decide (nd_shape mask_np = [Z.of_nat (max_frames b)])) as [Hsh|Hsh].
    - destruct (apply_mask_file_ok hml a0 b mask_np st Hp Hst Hsh) as (gt' & Hok & Hgt).
      rewrite Hok in H. injection H as <- <-. done.
    - unfold apply_mask_file, Str.eqb in H.
      rewrite bool_decide_eq_false_2 in H by exact Hp. cbn [negb] in H.
      unfold assert in H. rewrite bool_decide_eq_false_2 in H by exact Hsh. discriminate. }
  intros Hp H. destruct (Hmain a m gt Hp H) as [Hm Hgt].
  split; [exact Hm |]. split; [exact Hgt |].
  intros HJ mode' m' gt' H'. apply Hmain in H' as [Hm' _]; [| exact Hp].
  rewrite Hm, Hm'. f_equal. unfold mask_joints. cbn.
  destruct mode', (edit_mode a); congruence.
Qed.

(** C3: with a non-empty [args.mask_path] the run stops on an
    [AssertionError] exactly when the shape of the loaded array is not
    [(max_frames,)]; when it is, the run goes on and every sample gets the
    mask of the file. *)
Theorem C3_mask_shape_assertion (hml : list bool) (a : Args) (b : Batch Tensor)
    (mask_np : ndarray) (st : mask4 * gt_frames) :
  mask_path a <> "" ->
  edit_mask hml a b = Ok st ->
  (apply_mask_file a b mask_np st = Raise AssertionError
   <-> nd_shape mask_np <> [Z.of_nat (max_frames b)]) /\
  (nd_shape mask_np = [Z.of_nat (max_frames b)] ->
   exists gt',
     apply_mask_file a b mask_np st
     = Ok (file_mask_spec mask_np (length (lengths b)) (mask_joints hml a b) (in_nfeats b), gt') /\
     forall i, (i < length (lengths b))%nat -> gt' !! i = Some (nd_nonzero mask_np)).
Proof.
  intros Hp Hst. split; [| by apply apply_mask_file_ok].
  split.
  - intros Hraise Hsh.
    destruct (apply_mask_file_ok hml a b mask_np st Hp Hst Hsh) as (gt' & Hok & _).
    rewrite Hok in Hraise. discriminate.
  - intros Hsh. unfold apply_mask_file, Str.eqb.
    rewrite bool_decide_eq_false_2 by exact Hp. cbn [negb].
    unfold assert. by rewrite bool_decide_eq_false_2 by exact Hsh.
Qed.

End Masks.



Lemma C2_witness :
  [[[[true; true; false; false]]]] = file_mask_spec (array1 [1; 1; 0; 0]) 1 1 1 /\
  ({[ 0%nat := [0; 1] ]} : gt_frames) !! 0%nat = Some (nd_nonzero (array1 [1; 1; 0; 0])).
Proof.
  pose proof (C2_mask_file_overrides [] example_args small_batch (array1 [1; 1; 0; 0])
                [[[[true; true; false; false]]]] {[ 0%nat := [0; 1] ]}) as H.
  destruct H as (H1 & H2 & _).
  - discriminate.
  - vm_compute. reflexivity.
  - split; [exact H1 | apply H2; cbn; lia].
Defined.

(** a motion with 251 features and a lower-body mask of 263 entries: after
    the file is applied the mask has 251 joints for [in_between] and 263
    for [upper_body] *)
Lemma C2_counterexample :
  mask_path example_args <> "" /\
  (exists gt, inpainting_mask (replicate 263 true) example_args kit_batch (array1 [1; 0])
              = Ok (file_mask_spec (array1 [1; 0]) 1 251 1, gt)) /\
  (exists gt, inpainting_mask (replicate 263 true) (set_edit_mode upper_body example_args)
                kit_batch (array1 [1; 0])
              = Ok (file_mask_spec (array1 [1; 0]) 1 263 1, gt)) /\
  file_mask_spec (array1 [1; 0]) 1 251 1 <> file_mask_spec (array1 [1; 0]) 1 263 1.
Proof.
  split; [discriminate |].
  split; [eexists; vm_compute; reflexivity |].
  split; [eexists; vm_compute; reflexivity |].
  intros H. apply (f_equal (fmap (length (A := list (list bool))))) in H.
  vm_compute in H. discriminate.
Qed.

Lemma C3_witness :
  exists gt',
    apply_mask_file example_args small_batch (array1 [1; 1; 0; 0])
      ([[[[true; false; false; true]]]], {[ 0%nat := [0; 3] ]})
    = Ok (file_mask_spec (array1 [1; 1; 0; 0]) 1 1 1, gt') /\
    forall i, (i < 1)%nat -> gt' !! i = Some (nd_nonzero (array1 [1; 1; 0; 0])).
Proof.
  apply (proj2 (C3_mask_shape_assertion [] example_args small_batch (array1 [1; 1; 0; 0])
                  ([[[[true; false; false; true]]]], {[ 0%nat := [0; 3] ]})
                  ltac:(discriminate) ltac:(vm_compute; reflexivity))).
  reflexivity.
Defined.

(** a mask of three entries for a motion of four frames *)
Example mask_shape_rejected :
  apply_mask_file example_args small_batch (array1 [1; 1; 0])
    ([[[[true; false; false; true]]]], {[ 0%nat := [0; 3] ]})
  = Raise AssertionError.
Proof. reflexivity. Qed.

(** ** The repetition loop *)

Section Sampling.
Context `{E : Externals}.

Lemma the_call_spec (a : Args) (model : Model) (T : nat) (kw : Kwargs Tensor) :
  sample_call_spec a model T (the_call a model T kw).
Proof. repeat split. Qed.

Lemma py_index_1 (l : list Z) (d : Z) : py_index l 1 = Ok d -> l !! 1%nat = Some d.
Proof.
  unfold py_index. cbn. destruct l as [|x [|y l]]; cbn; intros [= <-]; reflexivity.
Qed.

Lemma repetition_ok (a : Args) (model : Model) (T rep_i : nat) (st st' : LoopState)
    (w w' : World) :
  repetition a model T rep_i st w = (Ok st', w') ->
  exists s,
    ones_times (batch_size a) (guidance_param a) = Ok s /\
    let kw := set_scale s (ls_kwargs st) in
    let x := p_sample_loop rep_i (the_call a model T kw) in
    w_log w' = (w_log w ++ [EvSample (the_call a model T kw)])%list /\
    w_fs w' = w_fs w /\
    ls_kwargs st' = kw /\
    ls_all_motions st' = (ls_all_motions st ++ [stored_motion model x])%list /\
    ls_all_lengths st' = (ls_all_lengths st ++ [kw_lengths (ls_kwargs st)])%list /\
    ls_all_text st' = (ls_all_text st ++ kw_text (ls_kwargs st))%list /\
    ls_n_joints st' = (if Str.eqb (data_rep model) "hml_vec" then Some (n_joints_spec x)
                       else ls_n_joints st).
Proof.
  unfold repetition. intros H.
  apply bind_ok in H as (s & w1 & H1 & H). apply lift_ok in H1 as [Hs ->].
  apply bind_ok in H as (u & w2 & H2 & H). apply emit_ok in H2 as [Hlog Hfs].
  apply bind_ok in H as ([x nj] & w3 & H3 & H).
  injection H as <- <-.
  exists s. split; [exact Hs |]. cbn zeta. unfold stored_motion.
  fold (the_call a model T (set_scale s (ls_kwargs st))) in H3.
  destruct (Str.eqb (data_rep model) "hml_vec").
  - apply bind_ok in H3 as (d & w4 & H4 & H3). apply lift_ok in H4 as [Hd ->].
    injection H3 as <- <- <-. apply py_index_1 in Hd.
    assert (n_joints_spec (p_sample_loop rep_i (the_call a model T (set_scale s (ls_kwargs st))))
            = if d =? 263 then 22 else 21) as ->.
    { unfold n_joints_spec. rewrite Hd.
      destruct (d =? 263) eqn:Hd'.
      - apply Z.eqb_eq in Hd' as ->. by rewrite bool_decide_eq_true_2.
      - apply Z.eqb_neq in Hd'. rewrite bool_decide_eq_false_2; [done | congruence]. }
    repeat split; done.
  - injection H3 as <- <- <-. repeat split; done.
Qed.

(** lines 120-153: when the loop runs to its end, every repetition called
    the sampler once, with the same arguments, and stored one batch *)
Lemma repetitions_ok (a : Args) (model : Model) (T : nat) (s : list float) (reps : list nat) :
  ones_times (batch_size a) (guidance_param a) = Ok s ->
  forall (st st' : LoopState) (w w' : World),
  repetitions a model T reps st w = (Ok st', w') ->
  let kw := set_scale s (ls_kwargs st) in
  let sample := fun k => p_sample_loop k (the_call a model T kw) in
  w_log w' = (w_log w ++ ((fun _ => EvSample (the_call a model T kw)) <$> reps))%list /\
  w_fs w' = w_fs w /\
  ls_all_motions st' = (ls_all_motions st ++ ((fun k => stored_motion model (sample k)) <$> reps))%list /\
  ls_all_lengths st'
  = (ls_all_lengths st ++ replicate (length reps) (kw_lengths (ls_kwargs st)))%list /\
  ls_all_text st'
  = (ls_all_text st ++ mjoin (replicate (length reps) (kw_text (ls_kwargs st))))%list /\
  ls_kwargs st' = (if reps is [] then ls_kwargs st else kw) /\
  ls_n_joints st'
  = foldl (fun nj k => if Str.eqb (data_rep model) "hml_vec"
                       then Some (n_joints_spec (sample k)) else nj)
          (ls_n_joints st) reps.
Proof.
  intros Hs. induction reps as [|r reps IH]; intros st st' w w' H.
  - injection H as <- <-. cbn. rewrite !app_nil_r. repeat split; done.
  - cbn [repetitions] in H. apply bind_ok in H as (st1 & w1 & H1 & H).
    apply repetition_ok in H1 as (s0 & Hs0 & Hlog1 & Hfs1 & Hkw1 & Hm1 & Hl1 & Ht1 & Hn1).
    rewrite Hs in Hs0. injection Hs0 as <-.
    apply IH in H as (Hlog & Hfs & Hm & Hl & Ht & Hk & Hn).
    rewrite Hkw1 in Hlog, Hm, Hl, Ht, Hk, Hn.
    change (set_scale s (set_scale s (ls_kwargs st))) with (set_scale s (ls_kwargs st))
      in Hlog, Hm, Hk, Hn.
    cbn [kw_lengths kw_text set_scale] in Hl, Ht.
    cbn zeta. repeat split.
    + rewrite Hlog, Hlog1, <- app_assoc. reflexivity.
    + congruence.
    + rewrite Hm, Hm1, <- app_assoc. reflexivity.
    + rewrite Hl, Hl1, <- app_assoc. reflexivity.
    + rewrite Ht, Ht1, <- app_assoc. reflexivity.
    + rewrite Hk. by destruct reps.
    + rewrite Hn, Hn1. reflexivity.
Qed.

Lemma repetitions_scale (a : Args) (model : Model) (T : nat) (r : nat) (reps : list nat)
    (st st' : LoopState) (w w' : World) :
  repetitions a model T (r :: reps) st w = (Ok st', w') ->
  exists s, ones_times (batch_size a) (guidance_param a) = Ok s.
Proof.
  cbn [repetitions]. intros H. apply bind_ok in H as (st1 & w1 & H1 & _).
  apply repetition_ok in H1 as (s & Hs & _). eauto.
Qed.

(** the events of the loop: the same call in every repetition *)
Lemma repetitions_log (a : Args) (model : Model) (T : nat) (reps : list nat)
    (st st' : LoopState) (w w' : World) :
  repetitions a model T reps st w = (Ok st', w') ->
  exists kw, w_log w' = (w_log w ++ ((fun _ => EvSample (the_call a model T kw)) <$> reps))%list.
Proof.
  intros H. destruct reps as [|r reps].
  - injection H as _ <-. exists (ls_kwargs st). by rewrite app_nil_r.
  - destruct (repetitions_scale _ _ _ _ _ _ _ _ _ H) as [s Hs].
    pose proof (repetitions_ok a model T s _ Hs _ _ _ _ H) as (Hlog & _). eauto.
Qed.

Lemma sample_calls_samples (calls : list (SampleCall Tensor)) :
  sample_calls (EvSample <$> calls) = calls.
Proof. unfold sample_calls. induction calls as [|c calls IH]; cbn; [done | by f_equal]. Qed.

Lemma sample_calls_app (l1 l2 : list event) :
  sample_calls (l1 ++ l2) = (sample_calls l1 ++ sample_calls l2)%list.
Proof. apply omap_app. Qed.

(** C4: when the repetition loop runs to its end, [diffusion.p_sample_loop]
    was called once in every iteration, [args.num_repetitions] times in all
    (no iteration when that number is not positive), every time with the
    shape [(args.batch_size, model.njoints, model.nfeats, max_frames)],
    [skip_timesteps=0], [init_image=None], [noise=None] and
    [clip_denoised=False]; the loop makes no other call. *)
Theorem C4_sampler_calls (a : Args) (model : Model) (T : nat) (st st' : LoopState)
    (w w' : World) :
  repetitions a model T (seq 0 (Z.to_nat (num_repetitions a))) st w = (Ok st', w') ->
  exists calls : list (SampleCall Tensor),
    w_log w' = (w_log w ++ (EvSample <$> calls))%list /\
    sample_calls (w_log w') = (sample_calls (w_log w) ++ calls)%list /\
    Z.of_nat (length calls) = Z.max 0 (num_repetitions a) /\
    Forall (sample_call_spec a model T) calls.
Proof.
  intros H. apply repetitions_log in H as [kw Hlog].
  exists ((fun _ => the_call a model T kw) <$> seq 0 (Z.to_nat (num_repetitions a))).
  rewrite <- list_fmap_compose. split; [exact Hlog |]. split; [| split].
  - rewrite Hlog, sample_calls_app. f_equal.
    rewrite (list_fmap_compose (fun _ => the_call a model T kw) EvSample).
    apply sample_calls_samples.
  - rewrite length_fmap, length_seq. lia.
  - apply Forall_fmap, Forall_true. intros k. apply the_call_spec.
Qed.

End Sampling.

(** ** Joint positions *)

Section JointPositions.
Context `{L : ShapeLaws}.

Lemma joint_positions_shape (n_joints : Z) (x : Tensor) (B J T : Z) :
  tensor_shape x = [B; J; 1; T] ->
  tensor_shape (joint_positions_spec n_joints x) = [B; n_joints; 3; T].
Proof.
  intros Hx. unfold joint_positions_spec. cbn zeta.
  rewrite shape_of_permute.
  assert (tensor_shape (recover_from_ric (to_float (inv_transform (permute x [0; 2; 3; 1]))) n_joints)
          = [B; 1; T; n_joints; 3]) as Hy.
  { rewrite shape_of_recover_from_ric, shape_of_to_float, shape_of_inv_transform,
      shape_of_permute, Hx. reflexivity. }
  rewrite Hy. cbn [drop].
  rewrite (shape_of_view _ B 1 [T; n_joints; 3] Hy). cbn. by rewrite Z.mul_1_r.
Qed.

Lemma n_joints_of_sample (a : Args) (model : Model) (T k : nat) (kw : Kwargs Tensor) :
  n_joints_spec (p_sample_loop k (the_call a model T kw))
  = if njoints model =? 263 then 22 else 21.
Proof.
  unfold n_joints_spec. rewrite shape_of_sample. cbn.
  destruct (njoints model =? 263) eqn:Hj.
  - apply Z.eqb_eq in Hj as ->. by rewrite bool_decide_eq_true_2.
  - apply Z.eqb_neq in Hj. rewrite bool_decide_eq_false_2; [done | congruence].
Qed.

Lemma visualize_motions (a : Args) (model : Model) (b : Batch Tensor) (out_path : string)
    (st : LoopState) (gt : gt_frames) (c : Collected) (w w' : World) (motions : Tensor) :
  data_rep model = "hml_vec" ->
  visualize a model b out_path st gt c w = (Ok motions, w') ->
  exists n_joints, ls_n_joints st = Some n_joints /\
                   motions = joint_positions_spec n_joints (input_motions b).
Proof.
  intros Hrep H. unfold visualize in H. rewrite Hrep in H.
  change (Str.eqb "hml_vec" "hml_vec") with true in H. cbn match in H.
  apply bind_ok in H as (m & w1 & H1 & H).
  apply bind_ok in H as (? & w2 & _ & H).
  apply bind_ok in H as (? & w3 & _ & H).
  apply bind_ok in H as (? & w4 & _ & H).
  apply bind_ok in H as (? & w5 & _ & H).
  injection H as <- _.
  destruct (ls_n_joints st) as [nj|]; [| discriminate].
  injection H1 as <- _. exists nj. split; reflexivity.
Qed.

(** C7: with the [hml_vec] representation every sampled batch is stored as
    joint positions: inverse transform, recovery from the RIC
    representation with 22 joints when the feature dimension is 263 and 21
    otherwise, and the permutation back, which leaves the shape
    [batch, n_joints, 3, frames]; the input motions go through the same
    conversion before the clips are made. *)
Theorem C7_joint_positions (a : Args) (model : Model) (b : Batch Tensor) (T : nat)
    (st st' : LoopState) (w w' : World) :
  data_rep model = "hml_vec" ->
  nfeats model = 1 ->
  ls_n_joints st = None ->
  repetitions a model T (seq 0 (Z.to_nat (num_repetitions a))) st w = (Ok st', w') ->
  let n_joints := if njoints model =? 263 then 22 else 21 in
  (exists call,
     sample_call_spec a model T call /\
     ls_all_motions st'
     = (ls_all_motions st
        ++ ((fun k => joint_positions_spec n_joints (p_sample_loop k call))
              <$> seq 0 (Z.to_nat (num_repetitions a))))%list /\
     forall k, tensor_shape (joint_positions_spec n_joints (p_sample_loop k call))
               = [batch_size a; n_joints; 3; Z.of_nat T]) /\
  (forall out_path gt c w1 w2 motions,
     visualize a model b out_path st' gt c w1 = (Ok motions, w2) ->
     motions = joint_positions_spec n_joints (input_motions b)).
Proof.
  intros Hrep Hfeat Hnone H n_joints.
  assert (forall k kw, tensor_shape (joint_positions_spec n_joints (p_sample_loop k (the_call a model T kw)))
                       = [batch_size a; n_joints; 3; Z.of_nat T]) as Hshape.
  { intros k kw. apply (joint_positions_shape _ _ _ (njoints model)).
    rewrite shape_of_sample. cbn. by rewrite Hfeat. }
  destruct (seq 0 (Z.to_nat (num_repetitions a))) as [|r reps] eqn:Hreps.
  - injection H as <- <-. split.
    + exists (the_call a model T (ls_kwargs st)).
      split; [apply the_call_spec |]. split; [by rewrite app_nil_r |].
      intros k. apply Hshape.
    + intros out_path gt c w1 w2 motions Hv.
      apply visualize_motions in Hv as (nj & Hnj & _); [| exact Hrep]. congruence.
  - destruct (repetitions_scale _ _ _ _ _ _ _ _ _ H) as [s Hs].
    apply (repetitions_ok a model T s _ Hs) in H as (_ & _ & Hm & _ & _ & _ & Hn).
    assert (Str.eqb (data_rep model) "hml_vec" = true) as Hb by by rewrite Hrep.
    split.
    + exists (the_call a model T (set_scale s (ls_kwargs st))).
      split; [apply the_call_spec |]. split; [| intros k; apply Hshape].
      rewrite Hm. f_equal. apply list_fmap_ext. intros i k _.
      unfold stored_motion. rewrite Hb. by rewrite n_joints_of_sample.
    + intros out_path gt c w1 w2 motions Hv.
      apply visualize_motions in Hv as (nj & Hnj & ->); [| exact Hrep].
      f_equal. rewrite Hn in Hnj. clear - Hnj Hb L.
      revert Hnj. generalize (ls_n_joints st). 
      assert (r :: reps <> []) as Hne by done. revert Hne.
      induction (r :: reps) as [|k l IH] using rev_ind; [done |].
      intros _ o. rewrite foldl_app. cbn. rewrite Hb, n_joints_of_sample.
      intros [= <-]. reflexivity.
Qed.

End JointPositions.

(** ** The clips and the shell commands *)

Section Clips.
Context `{E : Externals}.



Lemma system_cmds_app (l1 l2 : list event) :
  system_cmds (l1 ++ l2) = (system_cmds l1 ++ system_cmds l2)%list.
Proof. apply omap_app. Qed.

Lemma plotted_paths_app (l1 l2 : list event) :
  plotted_paths (l1 ++ l2) = (plotted_paths l1 ++ plotted_paths l2)%list.
Proof. apply omap_app. Qed.

Lemma system_cmds_plots (calls : list (PlotCall Tensor)) : system_cmds (EvPlot <$> calls) = [].
Proof. induction calls as [|c calls IH]; [done | exact IH]. Qed.

Lemma plotted_paths_plots (calls : list (PlotCall Tensor)) :
  plotted_paths (EvPlot <$> calls) = pc_save_path <$> calls.
Proof. induction calls as [|c calls IH]; [done |]. cbn. f_equal. exact IH. Qed.

Lemma plot_repetitions_ok (a : Args) (out_path : string) (sk : Skeleton) (gt : gt_frames)
    (c : Collected) (i : nat) (reps : list nat) :
  forall (w w' : World) (rs : list (string * Animation)),
  plot_repetitions a out_path sk gt c i reps w = (Ok rs, w') ->
  exists calls,
    w_log w' = (w_log w ++ (EvPlot <$> calls))%list /\
    pc_save_path <$> calls = rep_clip out_path i <$> reps /\
    fst <$> rs = rep_clip out_path i <$> reps.
Proof.
  induction reps as [|r reps IH]; intros w w' rs H.
  - injection H as <- <-. exists []. cbn. by rewrite app_nil_r.
  - cbn [plot_repetitions] in H.
    apply bind_ok in H as ([path an] & w1 & H1 & H).
    apply bind_ok in H as (rs' & w2 & H2 & H). injection H as <- <-.
    apply IH in H2 as (calls & Hlog & Hp & Hf).
    unfold plot_repetition in H1.
    apply bind_ok in H1 as (caption & w3 & H3 & H1). apply lift_ok in H3 as [_ ->].
    apply bind_ok in H1 as (len & w4 & H4 & H1). apply lift_ok in H4 as [_ ->].
    apply bind_ok in H1 as (u & w5 & H5 & H1). apply emit_ok in H5 as [Hlog5 _].
    injection H1 as <- _ <-.
    eexists (_ :: calls). split; [| split].
    + rewrite Hlog, Hlog5, <- app_assoc. reflexivity.
    + cbn. f_equal. exact Hp.
    + cbn. f_equal. exact Hf.
Qed.

Lemma visualize_sample_ok (a : Args) (out_path : string) (sk : Skeleton)
    (kw : Kwargs Tensor) (gt : gt_frames) (c : Collected) (i : nat)
    (w w' : World) (row : list Animation) :
  visualize_sample a out_path sk kw gt c i w = (Ok row, w') ->
  exists calls,
    w_log w' = (w_log w ++ (EvPlot <$> calls) ++ [EvSystem (ffmpeg_spec a out_path i)])%list /\
    pc_save_path <$> calls = rep_clip out_path i <$> seq 0 (Z.to_nat (num_repetitions a)).
Proof.
  unfold visualize_sample. intros H.
  apply bind_ok in H as (len & w1 & H1 & H). apply lift_ok in H1 as [_ ->].
  apply bind_ok in H as (rs & w2 & H2 & H).
  apply bind_ok in H as (u & w3 & H3 & H). apply emit_ok in H3 as [Hlog3 _].
  injection H as _ <-.
  apply plot_repetitions_ok in H2 as (calls & Hlog & Hp & Hf).
  exists calls. split; [| exact Hp].
  rewrite Hlog3, Hlog, <- app_assoc. do 3 f_equal.
  unfold ffmpeg_rep_cmd, ffmpeg_spec, input_clip. cbn zeta.
  change (map fst rs) with (fst <$> rs). rewrite Hf. reflexivity.
Qed.

Lemma visualize_samples_ok (a : Args) (out_path : string) (sk : Skeleton)
    (kw : Kwargs Tensor) (gt : gt_frames) (c : Collected) (samples : list nat) :
  forall (w w' : World) (rows : list (list Animation)),
  visualize_samples a out_path sk kw gt c samples w = (Ok rows, w') ->
  exists evs,
    w_log w' = (w_log w ++ evs)%list /\
    system_cmds evs = ffmpeg_spec a out_path <$> samples /\
    plotted_paths evs
    = samples ≫= (fun i => rep_clip out_path i <$> seq 0 (Z.to_nat (num_repetitions a))).
Proof.
  induction samples as [|i samples IH]; intros w w' rows H.
  - injection H as <- <-. exists []. cbn. by rewrite app_nil_r.
  - cbn [visualize_samples] in H.
    apply bind_ok in H as (row & w1 & H1 & H).
    apply bind_ok in H as (rows' & w2 & H2 & H). injection H as <- <-.
    apply visualize_sample_ok in H1 as (calls & Hlog1 & Hp).
    apply IH in H2 as (evs & Hlog & Hs & Hpl).
    exists (((EvPlot <$> calls) ++ [EvSystem (ffmpeg_spec a out_path i)]) ++ evs)%list.
    split; [| split].
    + rewrite Hlog, Hlog1, <- !app_assoc. reflexivity.
    + rewrite !system_cmds_app, system_cmds_plots, Hs. reflexivity.
    + rewrite !plotted_paths_app, plotted_paths_plots, Hpl, Hp. cbn.
      by rewrite app_nil_r.
Qed.

(** lines 175-229: the events of the visualisation *)
Lemma visualize_ok (a : Args) (model : Model) (b : Batch Tensor)
    (out_path : string) (st : LoopState) (gt : gt_frames) (c : Collected)
    (w w' : World) (motions : Tensor) :
  visualize a model b out_path st gt c w = (Ok motions, w') ->
  exists evs,
    w_log w' = (w_log w ++ evs)%list /\
    system_cmds evs = ffmpeg_spec a out_path <$> seq 0 (Z.to_nat (num_samples a)) /\
    plotted_paths evs
    = seq 0 (Z.to_nat (num_samples a))
      ≫= (fun i => rep_clip out_path i <$> seq 0 (Z.to_nat (num_repetitions a))).
Proof.
  unfold visualize. intros H.
  apply bind_ok in H as (m & w1 & H1 & H).
  assert (w_log w1 = w_log w) as Hw1.
  { destruct (Str.eqb (data_rep model) "hml_vec"); [| by injection H1 as _ <-].
    destruct (ls_n_joints st); [by injection H1 as _ <- | discriminate]. }
  apply bind_ok in H as (? & w2 & H2 & H). apply lift_ok in H2 as [_ ->].
  apply bind_ok in H as (rows & w3 & H3 & H).
  apply bind_ok in H as (? & w4 & H4 & H). apply lift_ok in H4 as [_ ->].
  apply bind_ok in H as (? & w5 & H5 & H). apply emit_ok in H5 as [Hlog5 _].
  injection H as _ <-.
  apply visualize_samples_ok in H3 as (evs & Hlog & Hs & Hpl).
  eexists (evs ++ [_])%list. split; [| split].
  - rewrite Hlog5, Hlog, Hw1, <- app_assoc. reflexivity.
  - rewrite system_cmds_app, Hs. cbn. apply app_nil_r.
  - rewrite plotted_paths_app, Hpl. cbn. apply app_nil_r.
Qed.


End Clips.

(** ** The output directory and the saved files *)

Section Saving.
Context `{E : Externals}.

Lemma length_append (p q : string) :
  String.length (p +:+ q) = (String.length p + String.length q)%nat.
Proof. induction p as [|c p IH]; simpl; [done | by rewrite IH]. Qed.

Lemma split_last_app (p : string) : (Path.split_last p).1 +:+ (Path.split_last p).2 = p.
Proof.
  induction p as [|c p IH]; [done |]. simpl.
  destruct (Path.split_last p) as [h t]. simpl in IH.
  destruct h as [|d h].
  - case_bool_decide; [reflexivity |]. change (String c p = String c p). reflexivity.
  - change (String c (String d h +:+ t) = String c p). by rewrite IH.
Qed.

Lemma rstrip_sep_length (s : string) :
  (String.length (Path.rstrip_sep s) <= String.length s)%nat.
Proof.
  induction s as [|c s IH]; simpl; [done |].
  destruct (Path.rstrip_sep s) as [|d r]; simpl in *.
  - case_bool_decide; simpl; lia.
  - lia.
Qed.

Lemma rstrip_sep_fixed (s : string) :
  String.length (Path.rstrip_sep s) = String.length s -> Path.rstrip_sep s = s.
Proof.
  induction s as [|c s IH]; simpl; [done |].
  pose proof (rstrip_sep_length s) as Hle.
  destruct (Path.rstrip_sep s) as [|d r] eqn:Hr; simpl in *.
  - case_bool_decide; simpl; intros Hl; [lia |].
    destruct s; [done | simpl in Hl; lia].
  - intros [= Hl]. by rewrite IH.
Qed.

Lemma append_empty_r (s : string) : s +:+ "" = s.
Proof.
  induction s as [|c s IH]; [done |].
  change (String c (s +:+ "") = String c s). by rewrite IH.
Qed.

(** [dirname p] is [p] or a shorter path *)
Lemma dirname_shorter (p : string) :
  Path.dirname p = p \/ (String.length (Path.dirname p) < String.length p)%nat.
Proof.
  unfold Path.dirname. pose proof (split_last_app p) as Happ.
  destruct (Path.split_last p) as [h t]. cbn [fst snd] in *.
  assert (String.length p = String.length h + String.length t)%nat as Hlen
    by by rewrite <- Happ, length_append.
  pose proof (rstrip_sep_length h) as Hle.
  pose proof (rstrip_sep_fixed h) as Hfix.
  destruct (Path.rstrip_sep h) as [|d r] eqn:Hr.
  - destruct t; [left; by rewrite <- Happ, append_empty_r | right; simpl in *; lia].
  - destruct (decide (String.length (String d r) = String.length p)) as [Heq|Hne].
    + left. rewrite Hfix by lia. destruct t; [| simpl in *; lia].
      by rewrite <- Happ, append_empty_r.
    + right. lia.
Qed.

Lemma prefix_app (p q : string) : String.prefix p q = true -> exists r, q = p +:+ r.
Proof.
  revert q. induction p as [|c p IH]; intros q H; [by exists q |].
  destruct q as [|d q]; [discriminate |]. simpl in H.
  destruct (ascii_dec c d) as [->|]; [| discriminate].
  destruct (IH q H) as [r ->]. by exists r.
Qed.

Lemma parents_shorter (fuel : nat) (p : string) :
  Forall (fun d => (String.length d < String.length p)%nat) (parents fuel p).
Proof.
  revert p. induction fuel as [|n IH]; intros p; cbn; [constructor |].
  destruct (Str.eqb (Path.dirname p) "" || Str.eqb (Path.dirname p) p) eqn:Hstop;
    [constructor |].
  apply orb_false_iff in Hstop as [_ Hne]. unfold Str.eqb in Hne.
  apply bool_decide_eq_false in Hne.
  destruct (dirname_shorter p) as [|Hlt]; [done |].
  constructor; [exact Hlt |].
  eapply Forall_impl; [apply IH |]. cbn. intros d Hd. lia.
Qed.

Lemma inside_longer (d q : string) :
  inside d q = true -> (String.length d < String.length q)%nat.
Proof.
  unfold inside, dir_prefix, Str.startswith, Str.eqb.
  intros H. apply andb_true_iff in H as [Hne H].
  apply negb_true_iff, bool_decide_eq_false in Hne.
  apply prefix_app in H as [r ->].
  destruct (bool_decide (d = "") || Str.endswith_char Path.sep d).
  - rewrite length_append. destruct r; [| simpl; lia].
    exfalso. apply Hne. apply append_empty_r.
  - rewrite !length_append. simpl. lia.
Qed.

(** the directories [os.makedirs] makes *)
Lemma makedirs_fold (ds : list string) (fs fs' : gmap string node) :
  foldr (fun d acc =>
           fs1 ← acc;
           match fs1 !! d with
           | None => Ok (<[d := Dir]> fs1)
           | Some Dir => Ok fs1
           | Some _ => Raise NotADirectoryError
           end) (Ok fs) ds = Ok fs' ->
  (forall d, d ∈ ds -> fs' !! d = Some Dir) /\
  (forall q, q ∉ ds -> fs' !! q = fs !! q).
Proof.
  revert fs'. induction ds as [|d ds IH]; intros fs' H; cbn in H.
  - injection H as <-. split; [intros d Hd; by apply elem_of_nil in Hd | done].
  - destruct (foldr _ (Ok fs) ds) as [fs1|] eqn:Hfold; [| discriminate]. cbn in H.
    destruct (IH fs1 eq_refl) as [IH1 IH2].
    destruct (fs1 !! d) as [[| |]|] eqn:Hd; try discriminate; injection H as <-.
    + split.
      * intros d' Hd'. apply elem_of_cons in Hd' as [->|Hd']; [exact Hd | by apply IH1].
      * intros q Hq. apply not_elem_of_cons in Hq as [_ Hq]. by apply IH2.
    + split.
      * intros d' Hd'. destruct (decide (d' = d)) as [->|Hne].
        -- apply lookup_insert_eq.
        -- rewrite lookup_insert_ne by done.
           apply elem_of_cons in Hd' as [->|Hd']; [done | by apply IH1].
      * intros q Hq. apply not_elem_of_cons in Hq as [Hne Hq].
        rewrite lookup_insert_ne by done. by apply IH2.
Qed.

(** lines 161-163 on an output directory that exists: after them the
    directory exists and nothing is left inside it *)
Lemma prepare_out_dir_fresh (out_path : string) (w w' : World) :
  w_fs w !! out_path = Some Dir ->
  prepare_out_dir out_path w = (Ok tt, w') ->
  w_fs w' !! out_path = Some Dir /\
  (forall q, inside out_path q = true -> w_fs w' !! q = None) /\
  w_log w' = w_log w.
Proof.
  intros Hdir H. unfold prepare_out_dir in H.
  apply bind_ok in H as (ex & w1 & H1 & H).
  unfold path_exists in H1. injection H1 as <- <-.
  rewrite bool_decide_eq_true_2 in H by (rewrite Hdir; eauto).
  apply bind_ok in H as (u & w2 & H2 & H).
  unfold rmtree, with_fs in H2. rewrite Hdir in H2. injection H2 as <- <-.
  unfold makedirs, with_fs in H. cbn [w_fs w_log] in H.
  set (fs1 := filter _ (w_fs w)) in H.
  assert (fs1 !! out_path = None) as Hout.
  { apply map_lookup_filter_None. right. intros x _. cbn. unfold Str.eqb.
    rewrite bool_decide_eq_true_2 by done. cbn. auto. }
  rewrite Hout in H.
  destruct (foldr _ (Ok fs1) _) as [fs2|] eqn:Hfold; [| discriminate].
  injection H as <-. cbn.
  apply makedirs_fold in Hfold as [Hin Hnot].
  split; [apply Hin, elem_of_cons; by left |]. split; [| reflexivity].
  intros q Hq. rewrite Hnot.
  - unfold fs1. apply map_lookup_filter_None. right. intros x _. cbn [fst]. rewrite Hq.
    cbn [negb]. rewrite andb_false_r. cbn. auto.
  - apply inside_longer in Hq. intros Hmem.
    apply elem_of_cons in Hmem as [->|Hmem]; [lia |].
    pose proof (parents_shorter (String.length out_path) out_path) as Hp.
    eapply Forall_forall in Hp; [| exact Hmem]. cbn in Hp. lia.
Qed.


Lemma replace_from_free (old new p rest : string) :
  free_of old p rest = true ->
  Str.replace_from old new 0 (p +:+ rest) = p +:+ Str.replace_from old new 0 rest.
Proof.
  induction p as [|c p IH]; [done |]. intros H.
  apply andb_true_iff in H as [Hc Hp]. apply negb_true_iff in Hc.
  change (String c p +:+ rest) with (String c (p +:+ rest)) in *.
  cbn [Str.replace_from]. rewrite Hc, IH by exact Hp. reflexivity.
Qed.

Lemma append_assoc (p q r : string) : (p +:+ q) +:+ r = p +:+ (q +:+ r).
Proof.
  induction p as [|c p IH]; [done |].
  change (String c ((p +:+ q) +:+ r) = String c (p +:+ (q +:+ r))). by rewrite IH.
Qed.

Lemma prefix_append (p r : string) : String.prefix p (p +:+ r) = true.
Proof.
  induction p as [|c p IH]; [by destruct r |].
  change (String c p +:+ r) with (String c (p +:+ r)). simpl.
  destruct (ascii_dec c c); [exact IH | congruence].
Qed.

Lemma join_dir_prefix (out_path x : string) :
  Str.startswith "/" x = false -> Path.join out_path x = dir_prefix out_path +:+ x.
Proof.
  intros Hx. unfold Path.join, dir_prefix. rewrite Hx.
  destruct (Str.eqb out_path "" || Str.endswith_char Path.sep out_path); [done |].
  by rewrite append_assoc.
Qed.

Lemma dir_prefix_length (d : string) :
  (String.length d <= String.length (dir_prefix d))%nat.
Proof.
  unfold dir_prefix. destruct (Str.eqb d "" || Str.endswith_char Path.sep d); [done |].
  rewrite length_append. lia.
Qed.

(** a file name joined to the output directory is a path inside it *)
Lemma inside_join (out_path : string) (c : ascii) (x : string) :
  Str.startswith "/" (String c x) = false ->
  inside out_path (Path.join out_path (String c x)) = true.
Proof.
  intros Hx. rewrite join_dir_prefix by exact Hx. unfold inside, Str.startswith at 1.
  rewrite prefix_append, andb_true_r. apply negb_true_iff. unfold Str.eqb.
  apply bool_decide_eq_false. intros Heq. apply (f_equal String.length) in Heq.
  rewrite length_append in Heq. pose proof (dir_prefix_length out_path). simpl in Heq. lia.
Qed.

Lemma write_file_ok (p : string) (content : node) (w w' : World) (u : unit) :
  write_file p content w = (Ok u, w') ->
  w_fs w' = <[p := content]> (w_fs w) /\ w_log w' = w_log w.
Proof.
  unfold write_file, with_fs. intros H.
  repeat case_match; simplify_eq; done.
Qed.

(** the names of the two text files when no [.npy] occurs before the file name *)
Lemma text_file_names (out_path : string) :
  free_of ".npy" (dir_prefix out_path) "results.npy" = true ->
  Str.replace ".npy" ".txt" (Path.join out_path "results.npy")
  = Path.join out_path "results.txt" /\
  Str.replace ".npy" "_len.txt" (Path.join out_path "results.npy")
  = Path.join out_path "results_len.txt".
Proof.
  intros Hfree. rewrite !join_dir_prefix by reflexivity. unfold Str.replace.
  rewrite !replace_from_free by exact Hfree. done.
Qed.


End Saving.

(** C5: with [--output_dir runs.npy] the names of the two text files are
    made by replacing every [.npy] of the path of [results.npy], also the
    one in the directory: [results.npy] is written into the output
    directory, the text files are looked for under [runs.txt/...] and
    [runs_len.txt/...], and on a disk without those directories the run
    ends in [FileNotFoundError] with neither text file written. *)
Theorem C5_text_files_miss_output_dir :
  let out_path := resolve_out_path npy_dir_args in
  out_path = "runs.npy/edit_humanml_enc_512_50steps_000750000_in_between_seed10_a_person_lunges_forward" /\
  Str.replace ".npy" ".txt" (Path.join out_path "results.npy")
  = "runs.txt/edit_humanml_enc_512_50steps_000750000_in_between_seed10_a_person_lunges_forward/results.txt" /\
  Str.replace ".npy" "_len.txt" (Path.join out_path "results.npy")
  = "runs_len.txt/edit_humanml_enc_512_50steps_000750000_in_between_seed10_a_person_lunges_forward/results_len.txt" /\
  npy_dir_run.1 = Raise FileNotFoundError /\
  (exists r, w_fs npy_dir_run.2 !! Path.join out_path "results.npy" = Some (NpyFile r)) /\
  w_fs npy_dir_run.2 !! Path.join out_path "results.txt" = None /\
  w_fs npy_dir_run.2 !! Path.join out_path "results_len.txt" = None.
Proof.
  cbv zeta. repeat split; try (vm_compute; reflexivity).
  eexists. vm_compute. reflexivity.
Qed.

(** C10: the same run on a disk where [runs.txt/edit_...] exists: the
    output directory is made, [results.npy] goes into it, and
    [results.txt] is written under [runs.txt/], outside the output
    directory. *)
Theorem C10_text_file_outside_output_dir :
  let out_path := resolve_out_path npy_dir_args in
  let txt := Str.replace ".npy" ".txt" (Path.join out_path "results.npy") in
  w_fs txt_dir_run.2 !! out_path = Some Dir /\
  w_fs txt_dir_world !! txt = None /\
  w_fs txt_dir_run.2 !! txt
  = Some (TextFile ("a person lunges forward." +:+ newline +:+ "a person lunges forward.")) /\
  inside out_path txt = false.
Proof. cbv zeta. repeat split; vm_compute; reflexivity. Qed.

(** ** A run of [main] that ends normally *)

Section Runs.
Context `{E : Externals}.

(** the arguments after lines 61 and 84 *)
Definition effective_args (a : Args) : Args :=
  let a := set_batch_size (num_samples a) a in
  if Str.eqb (text_condition a) "" then set_guidance_param 0%float a else a.

(** the phases of a run that ends normally *)
Lemma main_phases (a : Args) (b : Batch Tensor) (model : Model) (mask_np : ndarray)
    (w w' : World) :
  main a b model mask_np w = (Ok tt, w') ->
  num_samples a <= batch_size a /\
  exists mask gt st w1 c w2 w3 motions,
    inpainting_mask HML_LOWER_BODY_MASK (effective_args a) b mask_np = Ok (mask, gt) /\
    repetitions (effective_args a) model (max_frames b)
      (seq 0 (Z.to_nat (num_repetitions a)))
      {| ls_kwargs := {| kw_inpainted_motion := input_motions b; kw_inpainting_mask := mask;
                         kw_text := replicate (Z.to_nat (num_samples a)) (text_condition a);
                         kw_lengths := lengths b; kw_scale := None |};
         ls_n_joints := None; ls_all_motions := []; ls_all_lengths := [];
         ls_all_text := [] |} w
    = (Ok st, w1) /\
    collect (num_samples a * num_repetitions a) st = Ok c /\
    prepare_out_dir (resolve_out_path a) w1 = (Ok tt, w2) /\
    save_results (effective_args a) (resolve_out_path a) c w2 = (Ok tt, w3) /\
    visualize (effective_args a) model b (resolve_out_path a) st gt c w3 = (Ok motions, w').
Proof.
  intros H. unfold main in H.
  apply bind_ok in H as (a1 & w0 & H0 & H). apply lift_ok in H0 as [Hc ->].
  destruct (Z.le_gt_cases (num_samples a) (batch_size a)) as [Hle|Hgt];
    [| rewrite check_batch_size_fails in Hc by lia; discriminate].
  rewrite (check_batch_size_ok a Hle) in Hc. injection Hc as <-.
  split; [exact Hle |].
  apply bind_ok in H as ([mask gt] & w0 & H0 & H). apply lift_ok in H0 as [Hmask ->].
  apply bind_ok in H as (st & w1 & Hloop & H).
  apply bind_ok in H as (c & w1' & H0 & H). apply lift_ok in H0 as [Hcol ->].
  apply bind_ok in H as ([] & w2 & Hprep & H).
  apply bind_ok in H as ([] & w3 & Hsave & H).
  apply bind_ok in H as (motions & w4 & Hvis & H). injection H as <-.
  exists mask, gt, st, w1, c, w2, w3, motions.
  unfold effective_args. cbv zeta. cbn [text_condition set_batch_size] in *.
  destruct (Str.eqb (text_condition a) "").
  all: split; [exact Hmask |]; split; [exact Hloop |]; split; [exact Hcol |].
  all: split; [exact Hprep |]; split; [exact Hsave | exact Hvis].
Qed.

Lemma sample_calls_none (evs : list event) :
  Forall (fun e => forall c, e <> EvSample c) evs -> sample_calls evs = [].
Proof.
  induction 1 as [|e evs He _ IH]; [done |]. cbn.
  destruct e; try exact IH. by destruct (He c).
Qed.

Lemma emits_only_run {A : Type} (P : event -> Prop) (s : script A) (w w' : World) (r : result A) :
  emits_only P s -> s w = (r, w') ->
  exists evs, w_log w' = (w_log w ++ evs)%list /\ Forall P evs.
Proof. intros Hs Hrun. destruct (Hs w) as (evs & Hlog & HP). rewrite Hrun in Hlog. eauto. Qed.

(** in a run that ends normally the sampler is called [num_repetitions]
    times, a positive number, and there is one shell command per sample *)
Lemma main_ok_calls (a : Args) (b : Batch Tensor) (model : Model) (mask_np : ndarray)
    (w w' : World) :
  main a b model mask_np w = (Ok tt, w') ->
  exists evs,
    w_log w' = (w_log w ++ evs)%list /\
    Z.of_nat (length (sample_calls evs)) = num_repetitions a /\
    Forall (sample_call_spec (effective_args a) model (max_frames b)) (sample_calls evs) /\
    system_cmds evs
    = ffmpeg_spec (effective_args a) (resolve_out_path a) <$> seq 0 (Z.to_nat (num_samples a)).
Proof.
  intros H. apply main_phases in H as (Hle & mask & gt & st & w1 & c & w2 & w3 & motions
                                       & Hmask & Hloop & Hcol & Hprep & Hsave & Hvis).
  assert (num_repetitions (effective_args a) = num_repetitions a) as Hreps
    by (unfold effective_args; cbn; by destruct (Str.eqb _ _)).
  assert (num_samples (effective_args a) = num_samples a) as Hsamples
    by (unfold effective_args; cbn; by destruct (Str.eqb _ _)).
  assert (0 < num_repetitions a) as Hpos.
  { destruct (Z.to_nat (num_repetitions a)) eqn:Hn; [| lia].
    cbn in Hloop. injection Hloop as <- _. discriminate. }
  rewrite <- Hreps in Hloop. apply repetitions_log in Hloop as [kw Hlog1].
  apply (emits_only_run (fun _ => False)) in Hprep
    as (evs2 & Hlog2 & HP2); [| apply emits_only_prepare_out_dir].
  apply (emits_only_run (fun _ => False)) in Hsave
    as (evs3 & Hlog3 & HP3); [| apply emits_only_save_results].
  pose proof Hvis as Hvis'.
  apply (emits_only_run (fun e => forall c, e <> EvSample c)) in Hvis'
    as (evs4 & Hlog4 & HP4); [| by apply emits_only_visualize].
  apply visualize_ok in Hvis as (evs4' & Hlog4' & Hcmds & _).
  assert (evs4' = evs4) as -> by (rewrite Hlog4 in Hlog4'; by apply app_inv_head in Hlog4').
  set (calls := (fun _ : nat => the_call (effective_args a) model (max_frames b) kw)
                <$> seq 0 (Z.to_nat (num_repetitions (effective_args a)))).
  assert (w_log w1 = (w_log w ++ (EvSample <$> calls))%list) as Hlog1'
    by (unfold calls; by rewrite <- list_fmap_compose).
  clear Hlog1.
  assert (forall evs, system_cmds (EvSample <$> evs) = []) as Hsys
    by (intros evs; induction evs; done).
  assert (evs2 = [] /\ evs3 = []) as [-> ->].
  { split; [destruct HP2 | destruct HP3]; done. }
  exists ((EvSample <$> calls) ++ evs4)%list.
  rewrite sample_calls_app, sample_calls_samples, (sample_calls_none evs4 HP4), app_nil_r.
  split; [| split; [| split]].
  - rewrite Hlog4, Hlog3, Hlog2, Hlog1', !app_nil_r, <- app_assoc. reflexivity.
  - unfold calls. rewrite length_fmap, length_seq. lia.
  - apply Forall_fmap, Forall_true. intros k. apply the_call_spec.
  - rewrite system_cmds_app, Hsys, Hcmds, Hsamples. reflexivity.
Qed.

End Runs.

(** ** The mask, frame by frame *)

Section MaskFrames.
Context {Tensor : Type}.





Lemma nd_nonzero_torch_bool (mask_np : ndarray) (t : nat) :
  Z.of_nat t ∈ nd_nonzero mask_np <-> torch_bool mask_np !! t = Some true.
Proof.
  unfold nd_nonzero, torch_bool. change (map ?f ?l) with (f <$> l).
  rewrite list_elem_of_omap, list_lookup_fmap. split.
  - intros (y & Hin & Hx). apply elem_of_lookup_imap in Hin as (k & x & -> & Hl).
    cbn in Hx. destruct (x =? 0) eqn:Hz; [discriminate |]. injection Hx as Hx.
    apply Nat2Z.inj in Hx as ->. rewrite Hl. cbn. by rewrite Hz.
  - intros H. destruct (nd_entries mask_np !! t) as [x|] eqn:Hl; [| discriminate].
    cbn in H. injection H as H. apply negb_true_iff in H.
    exists (t, x). split; [by apply elem_of_lookup_imap; eauto |]. by rewrite H.
Qed.

Lemma mask_at_uniform (B J F : nat) (frames : list bool) (i j f t : nat) (v : bool) :
  mask_at (replicate B (replicate J (replicate F frames))) i j f t = Some v ->
  (i < B)%nat /\ frames !! t = Some v.
Proof.
  unfold mask_at. intros H.
  destruct (replicate B _ !! i) as [sample|] eqn:Hi; [| discriminate]. cbn in H.
  apply lookup_replicate in Hi as [-> Hi].
  destruct (replicate J _ !! j) as [joint|] eqn:Hj; [| discriminate]. cbn in H.
  apply lookup_replicate in Hj as [-> Hj].
  destruct (replicate F _ !! f) as [fr|] eqn:Hf; [| discriminate]. cbn in H.
  apply lookup_replicate in Hf as [-> Hf]. done.
Qed.



(** X3: when the mask of the file is applied, the frames listed in
    [gt_frames_per_sample[i]] are exactly the frames of sample [i] the
    final mask leaves True, in both edit modes. *)
Theorem file_gt_frames_match_mask (hml : list bool) (a : Args) (b : Batch Tensor)
    (mask_np : ndarray) (m : mask4) (gt : gt_frames) :
  mask_path a <> "" ->
  inpainting_mask hml a b mask_np = Ok (m, gt) ->
  forall i j f t v,
    mask_at m i j f t = Some v ->
    (v = true <-> exists l, gt !! i = Some l /\ Z.of_nat t ∈ l).
Proof.
  intros Hp H. unfold inpainting_mask in H.
  destruct (edit_mask hml a b) as [st|] eqn:Hst; [| discriminate]. cbn in H.
  destruct (decide (nd_shape mask_np = [Z.of_nat (max_frames b)])) as [Hsh|Hsh].
  - destruct (apply_mask_file_ok hml a b mask_np st Hp Hst Hsh) as (gt' & Hok & Hgt).
    rewrite Hok in H. injection H as <- <-.
    intros i j f t v Hat. apply mask_at_uniform in Hat as [Hi Ht].
    rewrite (Hgt i Hi). split.
    + intros ->. eexists. split; [reflexivity |]. by apply nd_nonzero_torch_bool.
    + intros (l & [= <-] & Hin). apply nd_nonzero_torch_bool in Hin. congruence.
  - unfold apply_mask_file, Str.eqb in H.
    rewrite bool_decide_eq_false_2 in H by exact Hp. cbn [negb] in H.
    unfold assert in H. rewrite bool_decide_eq_false_2 in H by exact Hsh. discriminate.
Qed.

End MaskFrames.


(** ** The output path, once more *)

Section OutPath.

Lemma has_char_app (c : ascii) (s1 s2 : string) :
  has_char c (s1 +:+ s2) = has_char c s1 || has_char c s2.
Proof.
  induction s1 as [|d s1 IH]; [done |].
  change (String d s1 +:+ s2) with (String d (s1 +:+ s2)). cbn. rewrite IH.
  by rewrite orb_assoc.
Qed.

(** replacing a character by a text without it leaves none *)
Lemma replace_removes_char (c : ascii) (new s : string) :
  has_char c new = false ->
  has_char c (Str.replace (String c EmptyString) new s) = false.
Proof.
  intros Hnew. unfold Str.replace. induction s as [|d s IH]; [done |].
  simpl Str.replace_from.
  destruct (ascii_dec c d) as [->|Hne].
  - assert (String.prefix "" s = true) as -> by by destruct s.
    by rewrite has_char_app, Hnew, IH.
  - cbn. rewrite IH. by rewrite bool_decide_eq_false_2.
Qed.

(** replacing a character brings in no other character that the new text
    has not *)
Lemma replace_keeps_char_out (c c' : ascii) (new s : string) :
  has_char c' new = false -> has_char c' s = false ->
  has_char c' (Str.replace (String c EmptyString) new s) = false.
Proof.
  intros Hnew. unfold Str.replace. induction s as [|d s IH]; [done |].
  intros Hs. cbn in Hs. apply orb_false_iff in Hs as [Hd Hs].
  simpl Str.replace_from.
  destruct (ascii_dec c d) as [->|Hne].
  - assert (String.prefix "" s = true) as -> by by destruct s.
    by rewrite has_char_app, Hnew, IH.
  - cbn. by rewrite Hd, IH.
Qed.

(** X4: the text condition goes into the output path after an
    underscore, without any space and without any period. *)
Theorem out_path_text_is_clean (a : Args) :
  text_condition a <> "" ->
  exists stem cleaned,
    resolve_out_path a = stem +:+ "_" +:+ cleaned /\
    cleaned = Str.replace "." "" (Str.replace " " "_" (text_condition a)) /\
    has_char " " cleaned = false /\ has_char "." cleaned = false.
Proof.
  intros Ht. unfold resolve_out_path. cbv zeta.
  assert (negb (Str.eqb (text_condition a) "") = true) as ->
    by (unfold Str.eqb; by rewrite bool_decide_eq_false_2).
  destruct (Str.eqb (output_dir a) ""); eexists _, _; (split; [reflexivity |]).
  all: split; [reflexivity |]; split.
  all: try (apply (replace_removes_char "." ""); reflexivity).
  all: apply (replace_keeps_char_out "." " " ""); [reflexivity |].
  all: apply (replace_removes_char " " "_"); reflexivity.
Qed.

Lemma join_append (d x sfx : string) :
  Str.startswith "/" x = false -> x <> "" ->
  Path.join d x +:+ sfx = Path.join d (x +:+ sfx).
Proof.
  intros Hx Hne. destruct x as [|c x]; [done |].
  assert (Str.startswith "/" (String c x +:+ sfx) = false) as Hx'.
  { change (String c x +:+ sfx) with (String c (x +:+ sfx)).
    unfold Str.startswith in *. cbn [String.prefix] in *.
    destruct (ascii_dec "/" c); [| reflexivity].
    destruct x; discriminate. }
  by rewrite !join_dir_prefix, append_assoc by assumption.
Qed.

(** X5: the output directory is always a path strictly inside the
    directory it is made in: [args.output_dir] when it is given, the
    directory of the model otherwise. *)
Theorem out_path_inside_base_dir (a : Args) :
  inside (base_dir a) (resolve_out_path a) = true.
Proof.
  unfold resolve_out_path, base_dir. cbv zeta.
  assert (forall d name niter sfx,
            inside d (Path.join d (edit_dir_name name niter a) +:+ sfx) = true) as Hin.
  { intros d name niter sfx. rewrite join_append by done. apply inside_join. reflexivity. }
  assert (forall d name niter, inside d (Path.join d (edit_dir_name name niter a)) = true) as Hin0.
  { intros d name niter. apply inside_join. reflexivity. }
  destruct (Str.eqb (output_dir a) ""), (negb (Str.eqb (text_condition a) "")); auto.
Qed.

End OutPath.


(** ** The output directory on the disk *)

Section OutDir.
Context `{E : Externals}.

(** [os.makedirs] overwrites nothing *)
Lemma makedirs_fold_keeps (ds : list string) (fs fs' : gmap string node) :
  foldr (fun d acc =>
           fs1 ← acc;
           match fs1 !! d with
           | None => Ok (<[d := Dir]> fs1)
           | Some Dir => Ok fs1
           | Some _ => Raise NotADirectoryError
           end) (Ok fs) ds = Ok fs' ->
  forall q x, fs !! q = Some x -> fs' !! q = Some x.
Proof.
  revert fs'. induction ds as [|d ds IH]; intros fs' H q x Hq; cbn in H.
  - by injection H as <-.
  - destruct (foldr _ (Ok fs) ds) as [fs1|] eqn:Hfold; [| discriminate]. cbn in H.
    specialize (IH fs1 eq_refl q x Hq).
    destruct (fs1 !! d) as [[| |]|] eqn:Hd; try discriminate; injection H as <-; [done |].
    rewrite lookup_insert_ne; [done | congruence].
Qed.

(** X6: when the output directory exists, lines 161-163 leave it in
    place and empty, and keep every entry of the disk that is neither the
    directory nor inside it. *)
Theorem out_dir_recreated_empty (out_path : string) (w w' : World) :
  w_fs w !! out_path = Some Dir ->
  prepare_out_dir out_path w = (Ok tt, w') ->
  w_fs w' !! out_path = Some Dir /\
  (forall q, inside out_path q = true -> w_fs w' !! q = None) /\
  (forall q x, q <> out_path -> inside out_path q = false ->
               w_fs w !! q = Some x -> w_fs w' !! q = Some x).
Proof.
  intros Hdir H. unfold prepare_out_dir in H.
  apply bind_ok in H as (ex & w1 & H1 & H).
  unfold path_exists in H1. injection H1 as <- <-.
  rewrite bool_decide_eq_true_2 in H by (rewrite Hdir; eauto).
  apply bind_ok in H as (u & w2 & H2 & H).
  unfold rmtree, with_fs in H2. rewrite Hdir in H2. injection H2 as <- <-.
  unfold makedirs, with_fs in H. cbn [w_fs w_log] in H.
  set (fs1 := filter _ (w_fs w)) in H.
  assert (fs1 !! out_path = None) as Hout.
  { apply map_lookup_filter_None. right. intros x _. cbn. unfold Str.eqb.
    rewrite bool_decide_eq_true_2 by done. cbn. auto. }
  rewrite Hout in H.
  destruct (foldr _ (Ok fs1) _) as [fs2|] eqn:Hfold; [| discriminate].
  injection H as <-. cbn.
  pose proof (makedirs_fold_keeps _ _ _ Hfold) as Hkeep.
  apply makedirs_fold in Hfold as [Hin Hnot].
  split; [apply Hin, elem_of_cons; by left |]. split.
  - intros q Hq. rewrite Hnot.
    + unfold fs1. apply map_lookup_filter_None. right. intros x _. cbn [fst]. rewrite Hq.
      cbn [negb]. rewrite andb_false_r. cbn. auto.
    + apply inside_longer in Hq. intros Hmem.
      apply elem_of_cons in Hmem as [->|Hmem]; [lia |].
      pose proof (parents_shorter (String.length out_path) out_path) as Hp.
      eapply Forall_forall in Hp; [| exact Hmem]. cbn in Hp. lia.
  - intros q x Hne Hq Hx. apply Hkeep. unfold fs1.
    apply map_lookup_filter_Some. split; [exact Hx |]. cbn [fst]. rewrite Hq. cbn.
    unfold Str.eqb. rewrite bool_decide_eq_false_2 by exact Hne. cbn. auto.
Qed.

(** X7: when the output path exists and is a file, [shutil.rmtree]
    raises [NotADirectoryError] and nothing on the disk changes. *)
Theorem out_path_is_a_file (out_path : string) (w : World) (x : node) :
  w_fs w !! out_path = Some x -> x <> Dir ->
  prepare_out_dir out_path w = (Raise NotADirectoryError, w).
Proof.
  intros Hx Hfile. unfold prepare_out_dir. rewrite bind_run.
  unfold path_exists. rewrite bool_decide_eq_true_2 by (rewrite Hx; eauto).
  rewrite bind_run. unfold rmtree, with_fs. rewrite Hx.
  destruct x; [done | reflexivity | reflexivity].
Qed.

(** X8: when the output directory does not exist yet, lines 161-163 make
    it and remove or change nothing. *)
Theorem out_dir_created (out_path : string) (w w' : World) :
  w_fs w !! out_path = None ->
  prepare_out_dir out_path w = (Ok tt, w') ->
  w_fs w' !! out_path = Some Dir /\
  (forall q x, w_fs w !! q = Some x -> w_fs w' !! q = Some x).
Proof.
  intros Hnone H. unfold prepare_out_dir in H.
  apply bind_ok in H as (ex & w1 & H1 & H).
  unfold path_exists in H1. injection H1 as <- <-.
  rewrite bool_decide_eq_false_2 in H by (rewrite Hnone; by intros [? ?]).
  apply bind_ok in H as (u & w2 & H2 & H). injection H2 as _ <-.
  unfold makedirs, with_fs in H. rewrite Hnone in H.
  destruct (foldr _ (Ok (w_fs w)) _) as [fs2|] eqn:Hfold; [| discriminate].
  injection H as <-. cbn.
  split; [| by eapply makedirs_fold_keeps].
  apply makedirs_fold in Hfold as [Hin _]. apply Hin, elem_of_cons. by left.
Qed.

(** X9: on an output directory that exists and whose path holds no
    [.npy], lines 161-173 leave exactly three entries inside it:
    [results.npy], [results.txt] and [results_len.txt]. *)
Theorem out_dir_holds_three_files (a : Args) (out_path : string) (c : Collected)
    (w w2 w3 : World) :
  w_fs w !! out_path = Some Dir ->
  free_of ".npy" (dir_prefix out_path) "results.npy" = true ->
  prepare_out_dir out_path w = (Ok tt, w2) ->
  save_results a out_path c w2 = (Ok tt, w3) ->
  forall q, inside out_path q = true ->
            (is_Some (w_fs w3 !! q)
             <-> q ∈ Path.join out_path <$> ["results.npy"; "results.txt"; "results_len.txt"]).
Proof.
  intros Hdir Hfree Hprep Hsave q Hq.
  assert (w_fs w2 !! q = None) as Hempty.
  { unfold prepare_out_dir in Hprep.
    apply bind_ok in Hprep as (ex & w1 & H1 & H).
    unfold path_exists in H1. injection H1 as <- <-.
    rewrite bool_decide_eq_true_2 in H by (rewrite Hdir; eauto).
    apply bind_ok in H as (u & w1 & H2 & H).
    unfold rmtree, with_fs in H2. rewrite Hdir in H2. injection H2 as <- <-.
    unfold makedirs, with_fs in H. cbn [w_fs w_log] in H.
    destruct (filter _ (w_fs w) !! out_path); [discriminate |].
    destruct (foldr _ _ _) as [fs2|] eqn:Hfold; [| discriminate].
    injection H as <-. cbn.
    apply makedirs_fold in Hfold as [_ Hnot]. rewrite Hnot.
    - apply map_lookup_filter_None. right. intros x _. cbn [fst]. rewrite Hq.
      cbn [negb]. rewrite andb_false_r. cbn. auto.
    - apply inside_longer in Hq. intros Hmem.
      apply elem_of_cons in Hmem as [->|Hmem]; [lia |].
      pose proof (parents_shorter (String.length out_path) out_path) as Hp.
      eapply Forall_forall in Hp; [| exact Hmem]. cbn in Hp. lia. }
  unfold save_results in Hsave. cbv zeta in Hsave.
  destruct (text_file_names out_path Hfree) as [Htxt Hlen]. rewrite Htxt, Hlen in Hsave.
  apply bind_ok in Hsave as (u1 & w4 & H1 & H). apply write_file_ok in H1 as [Hf1 _].
  apply bind_ok in H as (u2 & w5 & H2 & H). apply write_file_ok in H2 as [Hf2 _].
  apply write_file_ok in H as [Hf3 _].
  rewrite Hf3, Hf2, Hf1. cbn [fmap list_fmap].
  rewrite !elem_of_cons, elem_of_nil.
  destruct (decide (q = Path.join out_path "results_len.txt")) as [->|H3];
    [rewrite lookup_insert_eq; split; eauto |].
  rewrite lookup_insert_ne by done.
  destruct (decide (q = Path.join out_path "results.txt")) as [->|H2];
    [rewrite lookup_insert_eq; split; eauto |].
  rewrite lookup_insert_ne by done.
  destruct (decide (q = Path.join out_path "results.npy")) as [->|H1];
    [rewrite lookup_insert_eq; split; eauto |].
  rewrite lookup_insert_ne by done. rewrite Hempty.
  split; [by intros [? ?] | intros [?|[?|[?|[]]]]; done].
Qed.


End OutDir.

(** ** Runs of [main] that stop, and what the calls are given *)

Section RunBehaviour.
Context `{E : Externals}.


Lemma effective_args_fields (a : Args) :
  let a' := effective_args a in
  batch_size a' = num_samples a /\ num_samples a' = num_samples a /\
  num_repetitions a' = num_repetitions a /\ mask_path a' = mask_path a /\
  edit_mode a' = edit_mode a /\ text_condition a' = text_condition a /\
  dataset a' = dataset a /\ prefix_end a' = prefix_end a /\
  suffix_start a' = suffix_start a /\
  guidance_param a' = (if Str.eqb (text_condition a) "" then 0%float else guidance_param a).
Proof.
  unfold effective_args. cbn. destruct (Str.eqb (text_condition a) ""); cbn; repeat split.
Qed.

(** [main] from line 63 on, for arguments that passed line 55 *)
Lemma main_after_check (a : Args) (b : Batch Tensor) (model : Model) (mask_np : ndarray)
    (w : World) :
  num_samples a <= batch_size a ->
  main a b model mask_np w
  = ('(mask, gt) ← lift (inpainting_mask HML_LOWER_BODY_MASK (effective_args a) b mask_np);
     st ← repetitions (effective_args a) model (max_frames b)
            (seq 0 (Z.to_nat (num_repetitions a)))
            {| ls_kwargs := {| kw_inpainted_motion := input_motions b;
                               kw_inpainting_mask := mask;
                               kw_text := replicate (Z.to_nat (num_samples a)) (text_condition a);
                               kw_lengths := lengths b; kw_scale := None |};
               ls_n_joints := None; ls_all_motions := []; ls_all_lengths := [];
               ls_all_text := [] |};
     c ← lift (collect (num_samples a * num_repetitions a) st);
     _ ← prepare_out_dir (resolve_out_path a);
     _ ← save_results (effective_args a) (resolve_out_path a) c;
     _ ← visualize (effective_args a) model b (resolve_out_path a) st gt c;
     mret tt) w.
Proof.
  intros Hle. unfold main. rewrite bind_run.
  unfold lift at 1. rewrite (check_batch_size_ok a Hle).
  unfold effective_args. cbv zeta. cbn [text_condition set_batch_size].
  destruct (Str.eqb (text_condition a) ""); reflexivity.
Qed.

(** X10: a mask file whose shape is not [(max_frames,)] ends the run on
    the assertion of line 109 before anything is sampled, deleted or
    written. *)
Theorem mask_assertion_stops_run (a : Args) (b : Batch Tensor) (model : Model)
    (mask_np : ndarray) (st : mask4 * gt_frames) (w : World) :
  num_samples a <= batch_size a ->
  mask_path a <> "" ->
  edit_mask HML_LOWER_BODY_MASK (effective_args a) b = Ok st ->
  nd_shape mask_np <> [Z.of_nat (max_frames b)] ->
  main a b model mask_np w = (Raise AssertionError, w).
Proof.
  intros Hle Hp Hst Hsh. rewrite main_after_check by exact Hle.
  rewrite bind_run. unfold lift, inpainting_mask. rewrite Hst. cbn.
  unfold apply_mask_file, Str.eqb. destruct (effective_args_fields a) as (_ & _ & _ & -> & _).
  rewrite bool_decide_eq_false_2 by exact Hp. cbn [negb].
  unfold assert. by rewrite bool_decide_eq_false_2 by exact Hsh.
Qed.

(** X11: with [num_repetitions <= 0] the loop body never runs,
    [np.concatenate] of line 156 raises [ValueError] on the empty list, and
    the run ends before the output directory is touched. *)
Theorem no_repetition_stops_before_saving (a : Args) (b : Batch Tensor) (model : Model)
    (mask_np : ndarray) (mg : mask4 * gt_frames) (w : World) :
  num_samples a <= batch_size a ->
  inpainting_mask HML_LOWER_BODY_MASK (effective_args a) b mask_np = Ok mg ->
  num_repetitions a <= 0 ->
  main a b model mask_np w = (Raise ValueError, w).
Proof.
  intros Hle Hmask Hreps. rewrite main_after_check by exact Hle.
  rewrite bind_run. unfold lift at 1. rewrite Hmask. destruct mg as [mask gt].
  replace (Z.to_nat (num_repetitions a)) with 0%nat by lia. reflexivity.
Qed.























End RunBehaviour.


(** ** A ratio that is not a number *)

Section BadRatio.
Context `{E : Externals}.

(** a NaN times anything is a NaN, and [int] of it raises *)
Lemma frame_index_nan (ratio : float) (length : Z) :
  Prim2SF ratio = S754_nan -> frame_index ratio length = Raise ValueError.
Proof.
  intros Hnan. unfold frame_index, int_of_float.
  rewrite FloatAxioms.mul_spec, Hnan. reflexivity.
Qed.

(** X16: in the [in_between] mode on a batch that is not empty, a
    [prefix_end] that is not a number makes [int(args.prefix_end * length)]
    of line 96 raise [ValueError]; the run ends there, with nothing sampled
    and nothing written. *)
Theorem nan_prefix_end_stops_run (a : Args) (b : Batch Tensor) (model : Model)
    (mask_np : ndarray) (w : World) :
  num_samples a <= batch_size a ->
  edit_mode a = in_between ->
  lengths b <> [] ->
  Prim2SF (prefix_end a) = S754_nan ->
  main a b model mask_np w = (Raise ValueError, w).
Proof.
  intros Hle Hmode Hb Hnan. rewrite main_after_check by exact Hle.
  assert (inpainting_mask HML_LOWER_BODY_MASK (effective_args a) b mask_np = Raise ValueError)
    as Hmask.
  { unfold inpainting_mask, edit_mask.
    assert (edit_mode (effective_args a) = in_between) as ->
      by (unfold effective_args; cbn; by destruct (Str.eqb _ _)).
    assert (prefix_end (effective_args a) = prefix_end a) as Hp
      by (unfold effective_args; cbn; by destruct (Str.eqb _ _)).
    destruct (lengths b) as [|L rest]; [done |].
    cbn [in_between_loop]. rewrite Hp, (frame_index_nan _ _ Hnan). reflexivity. }
  rewrite bind_run. unfold lift. rewrite Hmask. reflexivity.
Qed.

End BadRatio.

(** ** Where an assertion error comes from *)

Section Assertions.
Context `{E : Externals}.

Lemma never_raises_ret {A : Type} (e : exn) (x : A) : never_raises e (mret x).
Proof. intros w w'. discriminate. Qed.

Lemma never_raises_lift {A : Type} (e : exn) (r : result A) :
  r <> Raise e -> never_raises e (lift r).
Proof. intros Hr w w' [= H _]. done. Qed.

Lemma never_raises_emit (e : exn) (ev : event) : never_raises e (emit ev).
Proof. intros w w'. discriminate. Qed.

Lemma never_raises_path_exists (e : exn) (p : string) : never_raises e (path_exists p).
Proof. intros w w'. discriminate. Qed.

Lemma never_raises_with_fs (e : exn) f :
  (forall fs, f fs <> Raise e) -> never_raises e (with_fs f).
Proof.
  intros Hf w w'. unfold with_fs. specialize (Hf (w_fs w)).
  destruct (f (w_fs w)); [discriminate |]. intros [= -> _]. done.
Qed.

Lemma never_raises_bind {A B : Type} (e : exn) (m : script A) (k : A -> script B) :
  never_raises e m -> (forall x, never_raises e (k x)) -> never_raises e (m ≫= k).
Proof.
  intros Hm Hk w w'. rewrite bind_run. specialize (Hm w).
  destruct (m w) as [[x|e'] w1]; [apply Hk |].
  intros [= -> ->]. by apply (Hm w').
Qed.

Lemma result_bind_no_raise {A B : Type} (e : exn) (r : result A) (k : A -> result B) :
  r <> Raise e -> (forall x, k x <> Raise e) -> r ≫= k <> Raise e.
Proof.
  intros Hr Hk. destruct r as [x|e']; [apply Hk |].
  intros [= ->]. by apply Hr.
Qed.

Lemma mapM_no_raise {A B : Type} (e : exn) (f : A -> result B) (l : list A) :
  (forall x, f x <> Raise e) -> mapM f l <> Raise e.
Proof.
  intros Hf. induction l as [|x l IH]; [discriminate |].
  cbn. apply result_bind_no_raise; [apply Hf |]. intros y.
  apply result_bind_no_raise; [exact IH | discriminate].
Qed.

Lemma frame_index_no_assert (ratio : float) (length : Z) :
  frame_index ratio length <> Raise AssertionError.
Proof. unfold frame_index, int_of_float. by destruct (Prim2SF _). Qed.

Lemma in_between_loop_no_assert (a : Args) (T : nat) (ls : list Z) :
  forall i st, in_between_loop a T i ls st <> Raise AssertionError.
Proof.
  induction ls as [|L ls IH]; intros i st; [discriminate |].
  cbn [in_between_loop].
  apply result_bind_no_raise; [apply frame_index_no_assert | intros s].
  apply result_bind_no_raise; [apply frame_index_no_assert | intros e].
  apply result_bind_no_raise; [| intros m; apply IH].
  unfold fill_frames. by destruct (_ !! _).
Qed.

Lemma edit_mask_no_assert (hml : list bool) (a : Args) (b : Batch Tensor) :
  edit_mask hml a b <> Raise AssertionError.
Proof.
  unfold edit_mask. destruct (edit_mode a); [apply in_between_loop_no_assert | discriminate].
Qed.

Lemma mask_file_loop_no_assert (mask_np : ndarray) (ls : list Z) :
  forall i st, mask_file_loop mask_np i ls st <> Raise AssertionError.
Proof.
  induction ls as [|L ls IH]; intros i st; [discriminate |].
  cbn [mask_file_loop]. apply result_bind_no_raise; [| intros m; apply IH].
  unfold assign_frames. destruct (_ !! _); [| discriminate].
  apply result_bind_no_raise; [| discriminate].
  apply mapM_no_raise. intros joint. apply mapM_no_raise. intros row.
  unfold broadcast_row. case_bool_decide; [discriminate |].
  by destruct (torch_bool mask_np) as [|? [|? ?]].
Qed.

(** the mask raises [AssertionError] only at line 109 *)
Lemma inpainting_mask_assert (hml : list bool) (a : Args) (b : Batch Tensor)
    (mask_np : ndarray) :
  inpainting_mask hml a b mask_np = Raise AssertionError ->
  mask_path a <> "" /\ nd_shape mask_np <> [Z.of_nat (max_frames b)].
Proof.
  unfold inpainting_mask. pose proof (edit_mask_no_assert hml a b) as Hm.
  destruct (edit_mask hml a b) as [st|e]; [| intros [= ->]; done].
  cbn. unfold apply_mask_file, Str.eqb.
  case_bool_decide as Hp; cbn; [discriminate |].
  unfold assert. case_bool_decide as Hs; cbn; [| done].
  intros H. by apply mask_file_loop_no_assert in H.
Qed.

Lemma py_index_no_assert {A : Type} (l : list A) (i : Z) :
  py_index l i <> Raise AssertionError.
Proof. unfold py_index. cbv zeta. destruct (_ <? 0); [discriminate |]. by destruct (_ !! _). Qed.

Lemma py_max_no_assert (l : list Z) : py_max l <> Raise AssertionError.
Proof. by destruct l. Qed.

Ltac no_raise :=
  first [ apply never_raises_bind; [| intros ? ]
        | apply never_raises_ret | apply never_raises_emit
        | apply never_raises_path_exists
        | apply never_raises_lift; first [apply py_index_no_assert | apply py_max_no_assert] ].

Lemma repetitions_no_assert (a : Args) (model : Model) (T : nat) (reps : list nat) :
  forall st, never_raises AssertionError (repetitions a model T reps st).
Proof.
  induction reps as [|r reps IH]; intros st; [apply never_raises_ret |].
  cbn [repetitions]. apply never_raises_bind; [| intros st'; apply IH].
  unfold repetition. apply never_raises_bind.
  { apply never_raises_lift. unfold ones_times. by destruct (_ <? 0). }
  intros s. cbv zeta. apply never_raises_bind; [apply never_raises_emit | intros _].
  apply never_raises_bind; [| intros [x nj]; apply never_raises_ret].
  destruct (Str.eqb _ _); repeat no_raise.
Qed.

Lemma prepare_out_dir_no_assert (out_path : string) :
  never_raises AssertionError (prepare_out_dir out_path).
Proof.
  unfold prepare_out_dir.
  apply never_raises_bind; [apply never_raises_path_exists | intros ex].
  apply never_raises_bind; [| intros _].
  - destruct ex; [| apply never_raises_ret]. apply never_raises_with_fs. intros fs.
    by destruct (fs !! out_path) as [[]|].
  - apply never_raises_with_fs. intros fs. destruct (fs !! out_path); [discriminate |].
    induction (out_path :: parents _ _) as [|d ds IH]; [discriminate |].
    cbn [foldr]. apply result_bind_no_raise; [exact IH |].
    intros fs'. by destruct (fs' !! d) as [[]|].
Qed.

Lemma write_file_no_assert (p : string) (content : node) :
  never_raises AssertionError (write_file p content).
Proof.
  apply never_raises_with_fs. intros fs. cbv zeta.
  destruct (fs !! p) as [[]|]; try discriminate;
    destruct (Str.eqb _ _); try discriminate; by destruct (fs !! _) as [[]|].
Qed.

Lemma save_results_no_assert (a : Args) (out_path : string) (c : Collected) :
  never_raises AssertionError (save_results a out_path c).
Proof.
  unfold save_results. cbv zeta.
  repeat (apply never_raises_bind; [apply write_file_no_assert | intros ?]).
  apply write_file_no_assert.
Qed.

Lemma plot_repetitions_no_assert (a : Args) (out_path : string) (sk : Skeleton)
    (gt : gt_frames) (c : Collected) (i : nat) (reps : list nat) :
  never_raises AssertionError (plot_repetitions a out_path sk gt c i reps).
Proof.
  induction reps as [|r reps IH]; [apply never_raises_ret |].
  cbn [plot_repetitions]. apply never_raises_bind.
  - unfold plot_repetition. repeat no_raise.
  - intros x. apply never_raises_bind; [exact IH | intros; apply never_raises_ret].
Qed.

Lemma visualize_samples_no_assert (a : Args) (out_path : string) (sk : Skeleton)
    (kw : Kwargs Tensor) (gt : gt_frames) (c : Collected) (samples : list nat) :
  never_raises AssertionError (visualize_samples a out_path sk kw gt c samples).
Proof.
  induction samples as [|i samples IH]; [apply never_raises_ret |].
  cbn [visualize_samples]. apply never_raises_bind.
  - unfold visualize_sample. cbv zeta.
    apply never_raises_bind; [apply never_raises_lift, py_index_no_assert | intros len].
    apply never_raises_bind; [apply plot_repetitions_no_assert | intros rs].
    repeat no_raise.
  - intros x. apply never_raises_bind; [exact IH | intros; apply never_raises_ret].
Qed.

Lemma visualize_no_assert (a : Args) (model : Model) (b : Batch Tensor) (out_path : string)
    (st : LoopState) (gt : gt_frames) (c : Collected) :
  never_raises AssertionError (visualize a model b out_path st gt c).
Proof.
  unfold visualize. cbv zeta. apply never_raises_bind.
  { destruct (Str.eqb _ _); [| apply never_raises_ret].
    destruct (ls_n_joints st); [apply never_raises_ret |].
    apply never_raises_lift. discriminate. }
  intros m.
  apply never_raises_bind; [apply never_raises_lift, py_max_no_assert | intros _].
  apply never_raises_bind; [apply visualize_samples_no_assert | intros rows].
  repeat no_raise.
Qed.

(** X17: a run ends on [AssertionError] only at one of the two
    assertions of the script, line 56 or line 109, and then nothing was
    sampled, deleted or written. *)
Theorem assertion_error_only_from_asserts (a : Args) (b : Batch Tensor) (model : Model)
    (mask_np : ndarray) (w w' : World) :
  main a b model mask_np w = (Raise AssertionError, w') ->
  w' = w /\
  (batch_size a < num_samples a \/
   (mask_path a <> "" /\ nd_shape mask_np <> [Z.of_nat (max_frames b)])).
Proof.
  intros H. destruct (Z.lt_ge_cases (batch_size a) (num_samples a)) as [Hlt|Hle].
  { rewrite main_assertion_fails in H by exact Hlt. injection H as <-. auto. }
  rewrite main_after_check in H by exact Hle. rewrite bind_run in H. unfold lift at 1 in H.
  destruct (inpainting_mask _ _ _ _) as [[mask gt]|e] eqn:Hmask.
  - exfalso. revert H. apply never_raises_bind; [apply repetitions_no_assert |].
    intros st. apply never_raises_bind.
    { apply never_raises_lift. unfold collect. by destruct (ls_all_motions st). }
    intros c. apply never_raises_bind; [apply prepare_out_dir_no_assert | intros _].
    apply never_raises_bind; [apply save_results_no_assert | intros _].
    apply never_raises_bind; [apply visualize_no_assert | intros _].
    apply never_raises_ret.
  - injection H as -> <-. split; [reflexivity |]. right.
    apply inpainting_mask_assert in Hmask as [Hp Hs].
    split; [| exact Hs].
    unfold effective_args in Hp. cbn in Hp. by destruct (Str.eqb _ _).
Qed.

End Assertions.

(** ** The names of the clips *)

Section ClipNames.
Context `{E : Externals}.









End ClipNames.

(** ** The grid of animations *)

Section Grid.
Context `{E : Externals}.










End Grid.

(** ** The files a run leaves *)

Section SavedFiles.
Context `{E : Externals}.













End SavedFiles.

(** ** The examples *)

Lemma shape_model_laws : ShapeLaws shape_model.
Proof.
  split; try reflexivity.
  intros t d0 d1 rest. cbn. intros ->. reflexivity.
Qed.

Lemma small_loop_ok :
  repetitions (E := shape_model) small_args small_model 4
    (seq 0 (Z.to_nat (num_repetitions small_args))) small_state empty_world
  = (Ok (result_get small_state small_loop.1), small_loop.2).
Proof. vm_compute. reflexivity. Qed.


Lemma C4_witness :
  exists calls : list (SampleCall (@Tensor shape_model)),
    w_log small_loop.2 = (w_log empty_world ++ (EvSample <$> calls))%list /\
    sample_calls (w_log small_loop.2) = (sample_calls (w_log empty_world) ++ calls)%list /\
    Z.of_nat (length calls) = Z.max 0 (num_repetitions small_args) /\
    Forall (sample_call_spec small_args small_model 4) calls.
Proof.
  exact (C4_sampler_calls (E := shape_model) small_args small_model 4 small_state _
           empty_world _ small_loop_ok).
Defined.

Example small_loop_calls :
  sc_shape <$> sample_calls (w_log small_loop.2) = [[1; 1; 1; 4]; [1; 1; 1; 4]].
Proof. vm_compute. reflexivity. Qed.

Lemma C7_witness :
  exists call,
    sample_call_spec small_args small_model 4 call /\
    ls_all_motions (result_get small_state small_loop.1)
    = (ls_all_motions small_state
       ++ ((fun k => joint_positions_spec 21 (p_sample_loop k call)) <$> seq 0 2))%list /\
    forall k, tensor_shape (joint_positions_spec 21 (p_sample_loop k call)) = [1; 21; 3; 4].
Proof.
  exact (proj1 (C7_joint_positions (L := shape_model_laws) small_args small_model small_batch 4
                  small_state _ empty_world _ eq_refl eq_refl eq_refl small_loop_ok)).
Defined.


Example small_ffmpeg_cmd :
  system_cmds (w_log small_visualize.2)
  = ["ffmpeg -y -loglevel warning  -i out/input_motion00.mp4  -i out/sample00_rep00.mp4  -i out/sample00_rep01.mp4  -filter_complex hstack=inputs=3 out/sample00.mp4"].
Proof. vm_compute. reflexivity. Qed.

Example small_plotted_paths :
  plotted_paths (w_log small_visualize.2) = ["out/sample00_rep00.mp4"; "out/sample00_rep01.mp4"].
Proof. vm_compute. reflexivity. Qed.

(** the example run ends normally and leaves the three data files in the
    output directory *)
Example example_run_files :
  let run := main (E := shape_model) example_args small_batch example_model
               (array1 [1; 1; 0; 0]) empty_world in
  let out_path := resolve_out_path example_args in
  run.1 = Ok tt /\
  w_fs run.2 !! (out_path +:+ "/results.txt")
  = Some (TextFile ("a person lunges forward." +:+ newline +:+ "a person lunges forward.")) /\
  w_fs run.2 !! (out_path +:+ "/results_len.txt") = Some (TextFile ("4" +:+ newline +:+ "4")) /\
  (exists r, w_fs run.2 !! (out_path +:+ "/results.npy") = Some (NpyFile r)) /\
  size (w_fs run.2) = 7%nat.
Proof. cbv zeta. repeat split; try (vm_compute; reflexivity). eexists. vm_compute. reflexivity. Qed.

Example replace_examples :
  Str.replace "model" "" "model000200000.pt" = "000200000.pt" /\
  Str.replace ".npy" ".txt" "a.npy/b.npy" = "a.txt/b.txt" /\
  Str.replace "aa" "b" "aaa" = "ba" /\
  Str.replace "." "" (Str.replace " " "_" "a person walks. then sits.") = "a_person_walks_then_sits".
Proof. repeat split. Qed.

Example format_examples :
  Str.format_02d <$> [0; 7; 10; 123] = ["00"; "07"; "10"; "123"] /\
  Str.of_int <$> [0; 10; -3] = ["0"; "10"; "-3"].
Proof. repeat split. Qed.

Example path_examples :
  Path.dirname <$> ["./save/humanml/model000200000.pt"; "/a"; "a"; "//a"; "a//b"; "a/b/"]
  = ["./save/humanml"; "/"; ""; "//"; "a"; "a/b"] /\
  Path.basename <$> ["./save/humanml/model000200000.pt"; "/a"; "a"; "a/b/"]
  = ["model000200000.pt"; "a"; "a"; ""] /\
  Path.join "a" "b" = "a/b" /\ Path.join "a/" "b" = "a/b" /\ Path.join "" "b" = "b" /\
  Path.join "a" "/b" = "/b".
Proof. repeat split. Qed.

Example frame_index_examples :
  frame_index 0.25%float 196 = Ok 49 /\ frame_index 0.75%float 196 = Ok 147 /\
  frame_index PrimFloat.nan 196 = Raise ValueError /\
  frame_index PrimFloat.infinity 196 = Raise OverflowError.
Proof. repeat split. Qed.

(** ** Instances of the further properties *)




Lemma file_gt_frames_match_mask_witness :
  true = true <-> exists l, ({[ 0%nat := [0; 1] ]} : gt_frames) !! 0%nat = Some l /\ 1 ∈ l.
Proof.
  apply (file_gt_frames_match_mask [] example_args small_batch (array1 [1; 1; 0; 0])
           [[[[true; true; false; false]]]] {[ 0%nat := [0; 1] ]}
           ltac:(discriminate) ltac:(vm_compute; reflexivity) 0%nat 0%nat 0%nat 1%nat true).
  reflexivity.
Defined.

Lemma out_path_text_is_clean_witness :
  exists stem cleaned,
    resolve_out_path example_args = stem +:+ "_" +:+ cleaned /\
    cleaned = Str.replace "." "" (Str.replace " " "_" (text_condition example_args)) /\
    has_char " " cleaned = false /\ has_char "." cleaned = false.
Proof. apply (out_path_text_is_clean example_args). discriminate. Defined.

Lemma out_dir_recreated_empty_witness :
  w_fs (prepare_out_dir (E := shape_model) "runs.txt" txt_dir_world).2 !! "runs.txt" = Some Dir /\
  (forall q, inside "runs.txt" q = true ->
             w_fs (prepare_out_dir (E := shape_model) "runs.txt" txt_dir_world).2 !! q = None) /\
  (forall q x, q <> "runs.txt" -> inside "runs.txt" q = false ->
               w_fs txt_dir_world !! q = Some x ->
               w_fs (prepare_out_dir (E := shape_model) "runs.txt" txt_dir_world).2 !! q = Some x).
Proof.
  apply (out_dir_recreated_empty (E := shape_model) "runs.txt" txt_dir_world).
  - vm_compute. reflexivity.
  - vm_compute. reflexivity.
Defined.

Lemma out_path_is_a_file_witness :
  prepare_out_dir (E := shape_model) "out" file_world = (Raise NotADirectoryError, file_world).
Proof.
  apply (out_path_is_a_file (E := shape_model) "out" file_world (TextFile "notes")).
  - vm_compute. reflexivity.
  - discriminate.
Defined.

Lemma out_dir_created_witness :
  w_fs (prepare_out_dir (E := shape_model) "clips" file_world).2 !! "clips" = Some Dir /\
  (forall q x, w_fs file_world !! q = Some x ->
               w_fs (prepare_out_dir (E := shape_model) "clips" file_world).2 !! q = Some x).
Proof.
  apply (out_dir_created (E := shape_model) "clips" file_world).
  - vm_compute. reflexivity.
  - vm_compute. reflexivity.
Defined.

Lemma out_dir_holds_three_files_witness :
  is_Some (w_fs (save_results (E := shape_model) small_args "runs.txt" small_collected
                   (prepare_out_dir (E := shape_model) "runs.txt" txt_dir_world).2).2
           !! "runs.txt/results_len.txt")
  <-> "runs.txt/results_len.txt"
      ∈ Path.join "runs.txt" <$> ["results.npy"; "results.txt"; "results_len.txt"].
Proof.
  apply (out_dir_holds_three_files (E := shape_model) small_args "runs.txt" small_collected
           txt_dir_world
           (prepare_out_dir (E := shape_model) "runs.txt" txt_dir_world).2).
  - vm_compute. reflexivity.
  - vm_compute. reflexivity.
  - vm_compute. reflexivity.
  - vm_compute. reflexivity.
  - reflexivity.
Defined.

Lemma mask_assertion_stops_run_witness :
  main (E := shape_model) example_args small_batch small_model (array1 [1; 1; 0]) empty_world
  = (Raise AssertionError, empty_world).
Proof.
  apply (mask_assertion_stops_run (E := shape_model) example_args small_batch small_model
           (array1 [1; 1; 0]) ([[[[true; false; false; true]]]], {[ 0%nat := [0; 3] ]})).
  - cbn. lia.
  - discriminate.
  - vm_compute. reflexivity.
  - discriminate.
Defined.

Lemma no_repetition_stops_before_saving_witness :
  main (E := shape_model) (set_num_repetitions 0 example_args) small_batch small_model
    (array1 [1; 1; 0; 0]) empty_world
  = (Raise ValueError, empty_world).
Proof.
  apply (no_repetition_stops_before_saving (E := shape_model)
           (set_num_repetitions 0 example_args) small_batch small_model (array1 [1; 1; 0; 0])
           ([[[[true; true; false; false]]]], {[ 0%nat := [0; 1] ]})).
  - cbn. lia.
  - vm_compute. reflexivity.
  - cbn. lia.
Defined.



Lemma nan_prefix_end_stops_run_witness :
  main (E := shape_model) (set_prefix_end PrimFloat.nan example_args) small_batch small_model
    (array1 [1; 1; 0; 0]) empty_world
  = (Raise ValueError, empty_world).
Proof.
  apply (nan_prefix_end_stops_run (E := shape_model) (set_prefix_end PrimFloat.nan example_args)
           small_batch small_model (array1 [1; 1; 0; 0]) empty_world).
  - cbn. lia.
  - reflexivity.
  - discriminate.
  - reflexivity.
Defined.

Lemma assertion_error_only_from_asserts_witness :
  empty_world = empty_world (E := shape_model) /\
  (batch_size example_args < num_samples example_args \/
   (mask_path example_args <> "" /\
    nd_shape (array1 [1; 1; 0]) <> [Z.of_nat (max_frames small_batch)])).
Proof.
  apply (assertion_error_only_from_asserts (E := shape_model) example_args small_batch
           small_model (array1 [1; 1; 0]) empty_world empty_world).
  vm_compute. reflexivity.
Defined.



